(** * Urban plot analysis pipeline: a shallow embedding and its properties

    The development follows the Python sources
    - [tools/urban-plot-analysis/rosreestr_client.py]   (cadastral registry gateway),
    - [tools/urban-plot-analysis/yandex_maps_client.py] (satellite imagery gateway),
    - [tools/urban-plot-analysis/claude_vision_client.py] (vision classifier),
    - [spb-land-finder/pipeline.py] (per-parcel analyzer, area scanner, ranker).

    Python values are dynamically typed, so every function is embedded over
    one type [pyval] of values; a Python call either returns or raises, which
    is the type [outcome].  Calls that leave the process (HTTP, files, the
    model API) are answered by a [World], and every such call is recorded in
    a trace, so that statements about which gateway was called can be made. *)

From Stdlib Require Import ZArith List String Ascii Bool Lia.
From Stdlib Require Import Sorting.Sorted Sorting.Permutation.
From Stdlib Require Import Floats.SpecFloat.
Import ListNotations.

Local Open Scope string_scope.
Local Open Scope Z_scope.
Local Open Scope list_scope.

#[local] Set Warnings "-register-all".

(* ================================================================== *)
(** * Python values *)
(* ================================================================== *)

Module Py.

(** A Python [float] is an IEEE 754 binary64 number: [spec_float] with
    53 bits of precision and exponents below 1024. *)
Definition prec : Z := 53.
Definition emax : Z := 1024.

(** What [json.loads] can produce, which is all the pipeline handles:
    [None], booleans, integers, floats, strings, lists and string-keyed
    dictionaries.  A dict is the list of its items in insertion order. *)
Inductive pyval : Type :=
| PNone
| PBool (b : bool)
| PInt (z : Z)
| PFloat (f : spec_float)
| PStr (s : string)
| PList (items : list pyval)
| PDict (entries : list (string * pyval)).

Definition dict : Type := list (string * pyval).

(** The exceptions the embedded code can meet, all of them instances of
    [Exception], which is what every handler in the sources catches;
    [exn_msg] is [str(e)], in the interpreter's wording where it is short. *)
Inductive exn_class : Type :=
| ValueError | TypeError | AttributeError | KeyError | IndexError
| OverflowError | OtherError.

Record exn : Type := Exn { exn_kind : exn_class; exn_msg : string }.

(** A call returns a value or raises. *)
Inductive outcome (A : Type) : Type :=
| Return (a : A)
| Raise (e : exn).
Arguments Return {A} a.
Arguments Raise {A} e.

Definition obind {A B} (c : outcome A) (k : A -> outcome B) : outcome B :=
  match c with
  | Return a => k a
  | Raise e => Raise e
  end.

(** [type(v).__name__], as it appears in the interpreter's messages. *)
Definition type_name (v : pyval) : string :=
  match v with
  | PNone => "NoneType"
  | PBool _ => "bool"
  | PInt _ => "int"
  | PFloat _ => "float"
  | PStr _ => "str"
  | PList _ => "list"
  | PDict _ => "dict"
  end.

(** [bool(v)]: the truth value tested by [if v], [not v], [a and b]. *)
Definition truthy (v : pyval) : bool :=
  match v with
  | PNone => false
  | PBool b => b
  | PInt z => negb (z =? 0)
  | PFloat (S754_zero _) => false
  | PFloat _ => true
  | PStr s => negb (String.eqb s "")
  | PList l => match l with [] => false | _ :: _ => true end
  | PDict d => match d with [] => false | _ :: _ => true end
  end.

(** ** Dictionaries *)

Fixpoint dict_get (d : dict) (k : string) : option pyval :=
  match d with
  | [] => None
  | (k', v) :: d' => if String.eqb k' k then Some v else dict_get d' k
  end.

(** [d.get(k, dflt)] on a dict. *)
Definition get_default (d : dict) (k : string) (dflt : pyval) : pyval :=
  match dict_get d k with
  | Some v => v
  | None => dflt
  end.

(** [d[k] = v]: the value is replaced in place, a new key goes last. *)
Fixpoint dict_set (d : dict) (k : string) (v : pyval) : dict :=
  match d with
  | [] => [(k, v)]
  | (k', v') :: d' =>
      if String.eqb k' k then (k, v) :: d' else (k', v') :: dict_set d' k v
  end.

Definition no_attribute (v : pyval) (attr : string) : exn :=
  Exn AttributeError
      ("'" ++ type_name v ++ "' object has no attribute '" ++ attr ++ "'")%string.

(** [v.get(k, dflt)] on any value: only a dict has the method. *)
Definition py_get (v : pyval) (k : string) (dflt : pyval) : outcome pyval :=
  match v with
  | PDict d => Return (get_default d k dflt)
  | _ => Raise (no_attribute v "get")
  end.

(** [v[k]] for a string [k]: a dict looks the key up, a list or a string
    wants an integer index, the other values are not subscriptable. *)
Definition py_subscript (v : pyval) (k : string) : outcome pyval :=
  match v with
  | PDict d =>
      match dict_get d k with
      | Some x => Return x
      | None => Raise (Exn KeyError ("'" ++ k ++ "'")%string)
      end
  | PList _ => Raise (Exn TypeError "list indices must be integers or slices, not str")
  | PStr _ => Raise (Exn TypeError "string indices must be integers, not 'str'")
  | _ => Raise (Exn TypeError ("'" ++ type_name v ++ "' object is not subscriptable")%string)
  end.

(** [v == s] for a string literal [s]: only that very string is equal. *)
Definition py_eq_str (v : pyval) (s : string) : bool :=
  match v with
  | PStr s' => String.eqb s' s
  | _ => false
  end.

(** ** Strings as sequences of code points

    A [str] is kept as its UTF-8 bytes.  A code point starts at every byte
    that is not a continuation byte (10xxxxxx). *)

Definition is_continuation (c : ascii) : bool :=
  let n := N_of_ascii c in (128 <=? n)%N && (n <? 192)%N.

Fixpoint utf8_chars_aux (cur : string) (s : string) : list string :=
  match s with
  | EmptyString => [cur]
  | String c rest =>
      if is_continuation c
      then utf8_chars_aux (cur ++ String c EmptyString)%string rest
      else cur :: utf8_chars_aux (String c EmptyString) rest
  end.

(** The characters of a string, each as a one-character string. *)
Definition utf8_chars (s : string) : list string :=
  match s with
  | EmptyString => []
  | String c rest => utf8_chars_aux (String c EmptyString) rest
  end.

(** [needle in hay] on strings. *)
Fixpoint contains (needle hay : string) : bool :=
  String.prefix needle hay ||
  match hay with
  | EmptyString => false
  | String _ rest => contains needle rest
  end.

(** [s.replace(a, b)] for one-character [a] and [b]. *)
Fixpoint replace_char (a b : ascii) (s : string) : string :=
  match s with
  | EmptyString => EmptyString
  | String c rest =>
      String (if Ascii.eqb c a then b else c) (replace_char a b rest)
  end.

(** ** Sequences *)

(** [len(v)]. *)
Definition py_len (v : pyval) : outcome Z :=
  match v with
  | PStr s => Return (Z.of_nat (List.length (utf8_chars s)))
  | PList l => Return (Z.of_nat (List.length l))
  | PDict d => Return (Z.of_nat (List.length d))
  | _ => Raise (Exn TypeError ("object of type '" ++ type_name v ++ "' has no len()")%string)
  end.

(** [l[:n]]: the first [n] items, and for a negative [n] all but the last
    [-n]. *)
Definition slice_to {A} (l : list A) (n : Z) : list A :=
  if 0 <=? n then firstn (Z.to_nat n) l
  else firstn (List.length l - Z.to_nat (- n))%nat l.

(** [v[0]]. *)
Definition py_first (v : pyval) : outcome pyval :=
  match v with
  | PList (x :: _) => Return x
  | PList [] => Raise (Exn IndexError "list index out of range")
  | PStr s =>
      match utf8_chars s with
      | c :: _ => Return (PStr c)
      | [] => Raise (Exn IndexError "string index out of range")
      end
  | PDict _ => Raise (Exn KeyError "0")
  | _ => Raise (Exn TypeError ("'" ++ type_name v ++ "' object is not subscriptable")%string)
  end.

(** [a, b = v]: the value is iterated and must yield exactly two items; a
    dict yields its keys. *)
Definition unpack2 (v : pyval) : outcome (pyval * pyval) :=
  let wrong_length := Exn ValueError "wrong number of values to unpack" in
  match v with
  | PList [a; b] => Return (a, b)
  | PList _ => Raise wrong_length
  | PStr s =>
      match utf8_chars s with
      | [a; b] => Return (PStr a, PStr b)
      | _ => Raise wrong_length
      end
  | PDict [(a, _); (b, _)] => Return (PStr a, PStr b)
  | PDict _ => Raise wrong_length
  | _ => Raise (Exn TypeError ("cannot unpack non-iterable " ++ type_name v ++ " object")%string)
  end.

(** ** Numbers

    [bool] is a subclass of [int]; an [int] is unbounded; a [float] is a
    binary64 number.  Mixed arithmetic converts the integer operand to a
    float first, comparisons are exact. *)

Inductive number : Type :=
| NInt (z : Z)
| NFloat (f : spec_float).

Definition number_val (n : number) : pyval :=
  match n with
  | NInt z => PInt z
  | NFloat f => PFloat f
  end.

Definition int_of (v : pyval) : option Z :=
  match v with
  | PBool b => Some (if b then 1 else 0)
  | PInt z => Some z
  | _ => None
  end.

Definition is_number (v : pyval) : bool :=
  match v with
  | PBool _ | PInt _ | PFloat _ => true
  | _ => false
  end.

(** [float(z)]: the nearest binary64 number, ties to even. *)
Definition float_of_Z (z : Z) : spec_float := binary_normalize prec emax z 0 false.

Definition unsupported (op : string) (a b : pyval) : exn :=
  Exn TypeError
      ("unsupported operand type(s) for " ++ op ++ ": '" ++ type_name a
         ++ "' and '" ++ type_name b ++ "'")%string.

(** The float operand of mixed arithmetic. *)
Definition to_float (v : pyval) : outcome spec_float :=
  match v with
  | PFloat f => Return f
  | _ =>
      match int_of v with
      | Some z =>
          match float_of_Z z with
          | S754_infinity _ => Raise (Exn OverflowError "int too large to convert to float")
          | f => Return f
          end
      | None => Raise (Exn TypeError "must be real number")
      end
  end.

(** [a + b]. *)
Definition py_add (a b : pyval) : outcome pyval :=
  match a, b with
  | PStr s1, PStr s2 => Return (PStr (s1 ++ s2)%string)
  | PList l1, PList l2 => Return (PList (l1 ++ l2))
  | _, _ =>
      match int_of a, int_of b with
      | Some x, Some y => Return (PInt (x + y))
      | _, _ =>
          if is_number a && is_number b
          then obind (to_float a) (fun x =>
               obind (to_float b) (fun y =>
               Return (PFloat (SFadd prec emax x y))))
          else Raise (unsupported "+" a b)
      end
  end.

(** [v / 2]: true division by the literal 2.  An integer is halved exactly
    and then rounded once. *)
Definition py_truediv_2 (v : pyval) : outcome pyval :=
  match v with
  | PFloat f => Return (PFloat (SFdiv prec emax f (float_of_Z 2)))
  | _ =>
      match int_of v with
      | Some z =>
          match binary_normalize prec emax z (-1) false with
          | S754_infinity _ =>
              Raise (Exn OverflowError "integer division result too large for a float")
          | f => Return (PFloat f)
          end
      | None => Raise (unsupported "/" v (PInt 2))
      end
  end.

(** The exact value of a number: not a number, an infinity, or [m * 2^e]. *)
Inductive xnum : Type :=
| XNaN
| XInf (negative : bool)
| XFin (m e : Z).

Definition xnum_of (v : pyval) : option xnum :=
  match v with
  | PFloat (S754_zero _) => Some (XFin 0 0)
  | PFloat (S754_infinity s) => Some (XInf s)
  | PFloat S754_nan => Some XNaN
  | PFloat (S754_finite s m e) => Some (XFin (cond_Zopp s (Zpos m)) e)
  | _ =>
      match int_of v with
      | Some z => Some (XFin z 0)
      | None => None
      end
  end.

(** Comparison of exact values; nothing compares with a NaN. *)
Definition xcompare (a b : xnum) : option comparison :=
  match a, b with
  | XNaN, _ | _, XNaN => None
  | XInf s1, XInf s2 =>
      Some (match s1, s2 with
            | true, false => Lt
            | false, true => Gt
            | _, _ => Eq
            end)
  | XInf s, XFin _ _ => Some (if s then Lt else Gt)
  | XFin _ _, XInf s => Some (if s then Gt else Lt)
  | XFin m1 e1, XFin m2 e2 =>
      let e := Z.min e1 e2 in
      Some (Z.compare (m1 * 2 ^ (e1 - e)) (m2 * 2 ^ (e2 - e)))
  end.

Definition not_supported (op : string) (a b : pyval) : exn :=
  Exn TypeError
      ("'" ++ op ++ "' not supported between instances of '" ++ type_name a
         ++ "' and '" ++ type_name b ++ "'")%string.

(** The order of [a] and a number [b], for the rich comparisons below. *)
Definition num_compare (op : string) (a : pyval) (b : number) : outcome (option comparison) :=
  match xnum_of a, xnum_of (number_val b) with
  | Some x, Some y => Return (xcompare x y)
  | _, _ => Raise (not_supported op a (number_val b))
  end.

(** [a >= b] against a number. *)
Definition py_ge (a : pyval) (b : number) : outcome bool :=
  obind (num_compare ">=" a b) (fun c =>
  Return (match c with Some Gt | Some Eq => true | _ => false end)).

(** [a < b] against a number. *)
Definition py_lt (a : pyval) (b : number) : outcome bool :=
  obind (num_compare "<" a b) (fun c =>
  Return (match c with Some Lt => true | _ => false end)).

(** [min(a, b)] for a number [b]: the first argument unless the second is
    smaller. *)
Definition py_min (a : pyval) (b : number) : outcome pyval :=
  obind (num_compare "<" a b) (fun c =>
  Return (match c with Some Gt => number_val b | _ => a end)).

(** [v == 0]. *)
Definition is_zero (v : pyval) : bool :=
  match xnum_of v with
  | Some x => match xcompare x (XFin 0 0) with Some Eq => true | _ => false end
  | None => false
  end.

(** A number other than NaN: such values are totally ordered. *)
Definition ordered (v : pyval) : bool :=
  match xnum_of v with
  | Some XNaN | None => false
  | Some _ => true
  end.

(** [a == b] on two numeric sort keys. *)
Definition key_eqb (a b : pyval) : bool :=
  match xnum_of a, xnum_of b with
  | Some x, Some y => match xcompare x y with Some Eq => true | _ => false end
  | _, _ => false
  end.

(** [a < b] on two numeric sort keys. *)
Definition key_ltb (a b : pyval) : bool :=
  match xnum_of a, xnum_of b with
  | Some x, Some y => match xcompare x y with Some Lt => true | _ => false end
  | _, _ => false
  end.

End Py.

(* ================================================================== *)
(** * The world outside the process *)
(* ================================================================== *)

Module Env.
Import Py.

(** The name under which a parcel's result file is written:
    [cadastral_number or f"{lat}_{lon}"]. *)
Inductive save_id : Type :=
| ByCadastral (cadastral_number : string)
| ByPoint (lat lon : pyval).

(** One event per call that leaves the process. *)
Inductive event : Type :=
| RegistryById (cadastral_number : string)
| RegistryByPoint (lat lon : pyval)
| RegistryInArea (min_lat min_lon max_lat max_lon : pyval) (limit : Z)
| ImageryGet (lat lon : pyval) (zoom width height : Z)
| ImageWrite (path : string)
| VisionCreate (image_data : string) (plot_details : dict)
| Sleep (seconds : Z)
| SaveResult (identifier : save_id) (result : dict)
| SaveAreaReport (all_results vacant_plots : list dict)
| SaveSuitableReport (suitable_plots : list dict).

(** The calls made so far, oldest first. *)
Definition trace : Type := list event.

(** How the world answers.  Every answer may depend on all that happened
    before, so a service may fail now and work later.
    - [registry_json]: [session.get], [raise_for_status] and
      [response.json()] of a registry request: the decoded body, or the
      exception one of the three raised;
    - [imagery_content]: the same for the static-maps request, giving
      [response.content];
    - [image_open]: whether PIL's [Image.open] accepts the bytes;
    - [write_file]: opening a file for writing and writing it;
    - [vision_text]: [messages.create] and [message.content[0].text];
    - [now_isoformat]: [datetime.now().isoformat()]. *)
Record World : Type := {
  registry_json : trace -> event -> outcome pyval;
  imagery_content : trace -> event -> outcome string;
  image_open : string -> outcome unit;
  write_file : trace -> event -> outcome unit;
  vision_text : trace -> event -> outcome string;
  now_isoformat : trace -> string
}.

(** Library functions that are used and not re-implemented here:
    [json.loads] on a text that starts and ends with a brace (a successful
    decoding of such a text is an object), and [str.lower]. *)
Record Runtime : Type := {
  json_loads : string -> outcome dict;
  str_lower : string -> string
}.

(** A computation reads the trace, extends it, and returns or raises. *)
Definition M (A : Type) : Type := trace -> outcome A * trace.

Definition ret {A} (a : A) : M A := fun t => (Return a, t).

Definition raise {A} (e : exn) : M A := fun t => (Raise e, t).

Definition lift {A} (o : outcome A) : M A := fun t => (o, t).

Definition bind {A B} (c : M A) (k : A -> M B) : M B :=
  fun t =>
    match c t with
    | (Return a, t') => k a t'
    | (Raise e, t') => (Raise e, t')
    end.

(** [try: c  except Exception as e: h e]. *)
Definition try_except {A} (c : M A) (h : exn -> M A) : M A :=
  fun t =>
    match c t with
    | (Return a, t') => (Return a, t')
    | (Raise e, t') => h e t'
    end.

(** A call to the world: answered from the history, then recorded. *)
Definition call {A} (answer : trace -> event -> outcome A) (e : event) : M A :=
  fun t => (answer t e, t ++ [e]).

(** An effect that cannot fail ([time.sleep]). *)
Definition emit (e : event) : M unit := fun t => (Return tt, t ++ [e]).

Definition clock (now : trace -> string) : M string := fun t => (Return (now t), t).

(** How often a gateway was called. *)
Definition is_registry_call (e : event) : bool :=
  match e with
  | RegistryById _ | RegistryByPoint _ _ | RegistryInArea _ _ _ _ _ => true
  | _ => false
  end.

Definition is_imagery_call (e : event) : bool :=
  match e with
  | ImageryGet _ _ _ _ _ => true
  | _ => false
  end.

Definition is_vision_call (e : event) : bool :=
  match e with
  | VisionCreate _ _ => true
  | _ => false
  end.

Definition calls (which : event -> bool) (t : trace) : nat :=
  List.length (filter which t).

End Env.

Declare Scope py_scope.
Delimit Scope py_scope with py.
Notation "x <- c ;; k" := (Env.bind c (fun x => k))
  (at level 61, c at next level, right associativity) : py_scope.
Notation "c1 ;; c2" := (Env.bind c1 (fun _ => c2))
  (at level 61, right associativity) : py_scope.
Notation "'let*' x ':=' c 'in' k" := (Py.obind c (fun x => k))
  (at level 10, x pattern, c at level 100, k at level 200) : py_scope.
Local Open Scope py_scope.

(* ================================================================== *)
(** * rosreestr_client.py *)
(* ================================================================== *)

Module RosreestrClient.
Import Py Env.

Section Client.
Variable w : World.

(** [get_plot_by_coordinates]: the first feature found at the point, or
    [None]; every exception is logged and turned into [None]. *)
Definition get_plot_by_coordinates (lat lon : pyval) : M pyval :=
  try_except
    (data <- call (registry_json w) (RegistryByPoint lat lon) ;;
     features <- lift (py_get data "features" PNone) ;;
     if truthy features
     then (fs <- lift (py_subscript data "features") ;; lift (py_first fs))
     else ret PNone)
    (fun _ => ret PNone).

(** [get_plot_by_cadastral_number]: the decoded body when it is truthy. *)
Definition get_plot_by_cadastral_number (cadastral_number : string) : M pyval :=
  try_except
    (data <- call (registry_json w) (RegistryById cadastral_number) ;;
     if truthy data then ret data else ret PNone)
    (fun _ => ret PNone).

(** [search_plots_in_area]: the [features] of the answer; the log line
    takes their [len], so a value without a length ends in the handler. *)
Definition search_plots_in_area (min_lat min_lon max_lat max_lon : pyval) (limit : Z)
  : M pyval :=
  try_except
    (data <- call (registry_json w) (RegistryInArea min_lat min_lon max_lat max_lon limit) ;;
     plots <- lift (py_get data "features" (PList [])) ;;
     lift (py_len plots) ;;
     ret plots)
    (fun _ => ret (PList [])).

End Client.

(** The body of [get_plot_coordinates], before its handler.  On a value
    that is not a dict the tests ['center' in plot_data] and
    ['extent' in plot_data] either raise (None, numbers), or are a substring
    or membership test (str, list) whose success is followed by
    [plot_data['center']], which raises on a str or a list: no such value
    has coordinates. *)
Definition get_plot_coordinates_body (plot_data : pyval) : outcome (option (pyval * pyval)) :=
  match plot_data with
  | PDict d =>
      match dict_get d "center" with
      | Some center =>
          let* point := match center with
                       | PDict c => py_subscript center "coordinates"
                       | _ => Return center
                       end in
          let* (lon, lat) := unpack2 point in
          Return (Some (lat, lon))
      | None =>
          match dict_get d "extent" with
          | Some extent =>
              let* ymin := py_subscript extent "ymin" in
              let* ymax := py_subscript extent "ymax" in
              let* ysum := py_add ymin ymax in
              let* lat := py_truediv_2 ysum in
              let* xmin := py_subscript extent "xmin" in
              let* xmax := py_subscript extent "xmax" in
              let* xsum := py_add xmin xmax in
              let* lon := py_truediv_2 xsum in
              Return (Some (lat, lon))
          | None => Return None
          end
      end
  | _ => Return None
  end.

(** [get_plot_coordinates]: [(lat, lon)] or [None]. *)
Definition get_plot_coordinates (plot_data : pyval) : option (pyval * pyval) :=
  match get_plot_coordinates_body plot_data with
  | Return r => r
  | Raise _ => None
  end.

(** [get_plot_details]: seven attributes with their defaults, or [{}] when
    [plot_data] or its [attrs] has no [get]. *)
Definition get_plot_details (plot_data : pyval) : dict :=
  match py_get plot_data "attrs" (PDict []) with
  | Return (PDict attrs) =>
      [ ("cadastral_number", get_default attrs "cn" (PStr "N/A"));
        ("area", get_default attrs "area_value" (PInt 0));
        ("area_unit", get_default attrs "area_unit" (PStr "м²"));
        ("category", get_default attrs "category_type" (PStr "N/A"));
        ("permitted_use", get_default attrs "util_by_doc" (PStr "N/A"));
        ("address", get_default attrs "address" (PStr "N/A"));
        ("cost", get_default attrs "cad_cost" (PInt 0)) ]
  | _ => []
  end.

End RosreestrClient.

(* ================================================================== *)
(** * yandex_maps_client.py *)
(* ================================================================== *)

Module YandexMapsClient.
Import Py Env.

Section Client.
Variable w : World.

(** [get_satellite_image]: the bytes of the image, or [None].  The inner
    handler covers [Image.open] and the write to [save_path], the outer
    one the request. *)
Definition get_satellite_image (lat lon : pyval) (zoom width height : Z)
    (save_path : string) : M (option string) :=
  try_except
    (image_data <- call (imagery_content w) (ImageryGet lat lon zoom width height) ;;
     try_except
       (lift (image_open w image_data) ;;
        (if truthy (PStr save_path)
         then call (write_file w) (ImageWrite save_path)
         else ret tt) ;;
        ret (Some image_data))
       (fun _ => ret None))
    (fun _ => ret None).

End Client.
End YandexMapsClient.

(* ================================================================== *)
(** * claude_vision_client.py *)
(* ================================================================== *)

Module ClaudeVisionClient.
Import Py Env.

Definition open_brace : ascii := "{"%char.
Definition close_brace : ascii := "}"%char.

(** The pattern searched by [_parse_response] reads: an opening brace; any
    run of characters other than braces; any number of groups made of an
    opening brace, a run without braces, a closing brace and a run without
    braces; a closing brace.  So braces nest at most one level deep.  After
    the opening brace the next brace decides every step, and giving back
    characters of a run never helps, so the match from a given start is
    unique.  [scan_object inner s] reads [s] after the opening brace
    ([inner]: inside a nested pair) and gives the number of characters up
    to and including the closing brace. *)
Fixpoint scan_object (inner : bool) (s : string) : option nat :=
  match s with
  | EmptyString => None
  | String c rest =>
      if Ascii.eqb c close_brace then
        if inner then option_map S (scan_object false rest) else Some 1%nat
      else if Ascii.eqb c open_brace then
        if inner then None else option_map S (scan_object true rest)
      else option_map S (scan_object inner rest)
  end.

(** [re.search(pattern, s)] and [group(0)]: the match at the leftmost
    position that has one. *)
Fixpoint re_search_object (s : string) : option string :=
  match s with
  | EmptyString => None
  | String c rest =>
      if Ascii.eqb c open_brace then
        match scan_object false rest with
        | Some n => Some (String c (substring 0 n rest))
        | None => re_search_object rest
        end
      else re_search_object rest
  end.

Section Client.
Variable rt : Runtime.
Variable w : World.

(** [_parse_response]: the JSON object found in the answer, as decoded;
    without one, a judgement read off keywords; when decoding raises, the
    inconclusive judgement of the handler. *)
Definition _parse_response (response_text : string) : dict :=
  match re_search_object response_text with
  | Some json_str =>
      match json_loads rt json_str with
      | Return parsed => parsed
      | Raise _ =>
          [ ("raw_response", PStr response_text);
            ("is_occupied", PNone);
            ("confidence", PStr "низкий") ]
      end
  | None =>
      let lower := str_lower rt response_text in
      [ ("is_occupied", PBool (contains "да" lower && contains "застройка" lower));
        ("confidence", PStr "средний");
        ("description", PStr response_text);
        ("buildings_detected", PBool (contains "здани" lower || contains "строени" lower));
        ("vegetation_level", PStr "unknown");
        ("suitable_for_development",
          PBool (contains "свобод" lower || contains "пригод" lower));
        ("recommendations", PStr "Требуется детальная проверка на месте") ]
  end.

(** [analyze_plot_occupancy]: the request is built from the image and the
    details of the plot; whatever is raised becomes a judgement with an
    [error] entry. *)
Definition analyze_plot_occupancy (image_data : string) (plot_details : dict) : M dict :=
  try_except
    (response_text <- call (vision_text w) (VisionCreate image_data plot_details) ;;
     ret (_parse_response response_text))
    (fun e =>
       ret [ ("error", PStr (exn_msg e));
             ("is_occupied", PNone);
             ("confidence", PStr "низкий") ]).

End Client.
End ClaudeVisionClient.

(* ================================================================== *)
(** * pipeline.py *)
(* ================================================================== *)

Module UrbanPlotAnalysisPipeline.
Import Py Env.
Import RosreestrClient YandexMapsClient ClaudeVisionClient.

(** ** [_calculate_suitability_score] *)

(** [confidence_map.get(c, 10)]: a key of a dict has to be hashable. *)
Definition confidence_map_get (c : pyval) : outcome Z :=
  match c with
  | PList _ | PDict _ =>
      Raise (Exn TypeError ("unhashable type: '" ++ type_name c ++ "'")%string)
  | PStr s =>
      if String.eqb s "высокий" then Return 30
      else if String.eqb s "средний" then Return 20
      else if String.eqb s "низкий" then Return 10
      else Return 10
  | _ => Return 10
  end.

Definition _calculate_suitability_score (result : dict) : outcome pyval :=
  let score := PFloat (S754_zero false) in
  let analysis := get_default result "analysis" (PDict []) in
  let plot_details := get_default result "plot_details" (PDict []) in
  let* confidence := py_get analysis "confidence" (PStr "низкий") in
  let* points := confidence_map_get confidence in
  let* score := py_add score (PInt points) in
  let* area := py_get plot_details "area" (PInt 0) in
  let* score :=
    (let* big := py_ge area (NInt 5000) in
     if big then py_add score (PInt 30)
     else
       let* medium := py_ge area (NInt 2000) in
       if medium then py_add score (PInt 20)
       else
         let* small := py_ge area (NInt 1000) in
         if small then py_add score (PInt 10) else Return score) in
  let* buildings_detected := py_get analysis "buildings_detected" (PBool true) in
  let* score :=
    (if negb (truthy buildings_detected) then py_add score (PInt 20) else Return score) in
  let* suitable := py_get analysis "suitable_for_development" (PBool false) in
  let* score := (if truthy suitable then py_add score (PInt 20) else Return score) in
  py_min score (NInt 100).

(** ** The scoring table of the specification

    The table as section 4.3 of the specification words it, to be compared
    with the function above: points for the confidence, points for the
    area, 20 points without buildings, 20 points when suitable, the sum
    capped at 100. *)

(** [area >= n], for an area that is a number. *)
Definition at_least (area : pyval) (n : Z) : bool :=
  match xnum_of area with
  | Some x => match xcompare x (XFin n 0) with Some Gt | Some Eq => true | _ => false end
  | None => false
  end.

(** high / medium / low: 30 / 20 / 10; anything else counts as low. *)
Definition confidence_points (confidence : pyval) : Z :=
  if py_eq_str confidence "высокий" then 30
  else if py_eq_str confidence "средний" then 20
  else 10.

(** at least 5000 / 2000 / 1000 / else: 30 / 20 / 10 / 0. *)
Definition area_points (area : pyval) : Z :=
  if at_least area 5000 then 30
  else if at_least area 2000 then 20
  else if at_least area 1000 then 10
  else 0.

Definition scoring_table (confidence area : pyval) (buildings_detected suitable : bool) : Z :=
  Z.min (confidence_points confidence
         + area_points area
         + (if buildings_detected then 0 else 20)
         + (if suitable then 20 else 0))
        100.

(** What can be looked up in a dict: lists and dicts cannot. *)
Definition hashable (v : pyval) : bool :=
  match v with
  | PList _ | PDict _ => false
  | _ => true
  end.

(** ** The vacancy test of [analyze_area] *)

(** [r.get('status') == 'success' and
     not r.get('analysis', {}).get('is_occupied', True)] *)
Definition is_vacant_plot (r : dict) : outcome bool :=
  if py_eq_str (get_default r "status" PNone) "success"
  then
    let* is_occupied := py_get (get_default r "analysis" (PDict [])) "is_occupied" (PBool true) in
    Return (negb (truthy is_occupied))
  else Return false.

(** The list comprehension that builds [vacant_plots]. *)
Fixpoint vacant_plots_of (results : list dict) : outcome (list dict) :=
  match results with
  | [] => Return []
  | r :: rest =>
      let* keep := is_vacant_plot r in
      let* others := vacant_plots_of rest in
      Return (if keep then r :: others else others)
  end.

(** ** The filter and the sort of [find_suitable_plots] *)

(** One turn of the loop over [all_results]: [None] when the result is
    passed over, the result with its score when it is appended. *)
Definition consider (min_area : number) (result : dict) : outcome (option dict) :=
  if negb (py_eq_str (get_default result "status" PNone) "success") then Return None
  else
    let plot_details := get_default result "plot_details" (PDict []) in
    let analysis := get_default result "analysis" (PDict []) in
    let* is_occupied := py_get analysis "is_occupied" (PBool true) in
    let is_vacant := negb (truthy is_occupied) in
    let* area := py_get plot_details "area" (PInt 0) in
    let* has_sufficient_area := py_ge area min_area in
    let* is_suitable := py_get analysis "suitable_for_development" (PBool false) in
    if is_vacant && has_sufficient_area
    then
      let* score := _calculate_suitability_score result in
      Return (Some (dict_set result "suitability_score" score))
    else Return None.

Fixpoint select_suitable (min_area : number) (all_results : list dict)
  : outcome (list dict) :=
  match all_results with
  | [] => Return []
  | result :: rest =>
      let* chosen := consider min_area result in
      let* others := select_suitable min_area rest in
      Return (match chosen with Some r => r :: others | None => others end)
  end.

(** The sort key: [x.get('suitability_score', 0)]. *)
Definition sort_key (x : dict) : pyval := get_default x "suitability_score" (PInt 0).

(** The order of a list sorted by descending key: [a] may stand before [b]
    when its key is not smaller. *)
Definition not_before (a b : dict) : Prop := key_ltb (sort_key a) (sort_key b) = false.

(** The plots whose key equals [k]. *)
Definition has_score (k : pyval) (x : dict) : bool := key_eqb (sort_key x) k.

(** [x] stands somewhere before [y] in [l]. *)
Definition precedes (x y : dict) (l : list dict) : Prop :=
  exists l1 l2 l3, l = l1 ++ x :: l2 ++ y :: l3.

(** [list.sort(key=..., reverse=True)] keeps elements with equal keys in
    their original order, also when reversed.  On keys that are totally
    ordered, as the scores are, that fixes the result: every element is
    moved before the following elements with a strictly smaller key.
    This is the sort on keys that are numbers other than NaN, and on those
    only: with a key that is [None] or a string [list.sort] raises, and
    with a NaN its result hangs on the order of its comparisons.  The keys
    the ranker sorts are the floats the filter has just set, so the sort of
    [find_suitable_plots] is always on ordered numbers. *)
Fixpoint insert_by_score (x : dict) (sorted : list dict) : list dict :=
  match sorted with
  | [] => [x]
  | y :: rest =>
      if key_ltb (sort_key x) (sort_key y)
      then y :: insert_by_score x rest
      else x :: y :: rest
  end.

Definition sort_by_score_reverse (plots : list dict) : list dict :=
  fold_right insert_by_score [] plots.

(** ** The analyzer, the scanner and the ranker *)

Section Pipeline.
Variable rt : Runtime.
Variable w : World.
Variable output_dir : string.

Definition not_found_result : dict :=
  [ ("status", PStr "not_found");
    ("error", PStr "Plot not found in cadastral registry") ].

Definition no_coordinates_result : dict :=
  [ ("status", PStr "error"); ("error", PStr "Could not extract coordinates") ].

Definition no_image_result (plot_details : dict) : dict :=
  [ ("status", PStr "error");
    ("error", PStr "Failed to get satellite image");
    ("plot_details", PDict plot_details) ].

Definition error_result (e : exn) : dict :=
  [ ("status", PStr "error"); ("error", PStr (exn_msg e)) ].

Definition success_result (timestamp : string) (plot_details : dict) (lat lon : pyval)
    (image_path : string) (analysis_result : dict) : dict :=
  [ ("status", PStr "success");
    ("timestamp", PStr timestamp);
    ("plot_details", PDict plot_details);
    ("coordinates", PDict [("lat", lat); ("lon", lon)]);
    ("satellite_image", PStr image_path);
    ("analysis", PDict analysis_result) ].

Definition cadastral_given (cadastral_number : option string) : bool :=
  match cadastral_number with
  | Some cn => truthy (PStr cn)
  | None => false
  end.

(** [ValueError("Either cadastral_number or (lat, lon) must be provided")] *)
Definition missing_identity : exn :=
  Exn ValueError "Either cadastral_number or (lat, lon) must be provided".

(** Step 1: [if cadastral_number: ... elif lat and lon: ... else: raise].
    A cadastral number is given as a string or not at all ([None]). *)
Definition lookup_plot (cadastral_number : option string) (lat lon : pyval) : M pyval :=
  match cadastral_number with
  | Some cn =>
      if truthy (PStr cn) then get_plot_by_cadastral_number w cn
      else if truthy lat && truthy lon then get_plot_by_coordinates w lat lon
      else raise missing_identity
  | None =>
      if truthy lat && truthy lon then get_plot_by_coordinates w lat lon
      else raise missing_identity
  end.

(** [f"plot_{plot_details.get('cadastral_number', 'unknown').replace(':', '_')}.png"] *)
Definition image_filename (plot_details : dict) : outcome string :=
  let cn := get_default plot_details "cadastral_number" (PStr "unknown") in
  match cn with
  | PStr s => Return ("plot_" ++ replace_char ":" "_" s ++ ".png")%string
  | _ => Raise (no_attribute cn "replace")
  end.

Definition image_path_of (filename : string) : string :=
  (output_dir ++ "/images/" ++ filename)%string.

(** [cadastral_number or f"{lat}_{lon}"], with the resolved coordinates. *)
Definition result_identifier (cadastral_number : option string) (lat lon : pyval) : save_id :=
  match cadastral_number with
  | Some cn => if truthy (PStr cn) then ByCadastral cn else ByPoint lat lon
  | None => ByPoint lat lon
  end.

(** What [analyze_single_plot] does inside its [try]. *)
Definition analyze_single_plot_body (cadastral_number : option string) (lat lon : pyval)
  : M dict :=
  plot_data <- lookup_plot cadastral_number lat lon ;;
  if negb (truthy plot_data) then ret not_found_result
  else
    let plot_details := get_plot_details plot_data in
    match get_plot_coordinates plot_data with
    | None => ret no_coordinates_result
    | Some (lat, lon) =>
        filename <- lift (image_filename plot_details) ;;
        let image_path := image_path_of filename in
        image <- get_satellite_image w lat lon 18 800 600 image_path ;;
        match image with
        | None => ret (no_image_result plot_details)
        | Some image_data =>
            if negb (truthy (PStr image_data)) then ret (no_image_result plot_details)
            else
              emit (Sleep 1) ;;
              analysis_result <- analyze_plot_occupancy rt w image_data plot_details ;;
              timestamp <- clock (now_isoformat w) ;;
              let result :=
                success_result timestamp plot_details lat lon image_path analysis_result in
              call (write_file w)
                   (SaveResult (result_identifier cadastral_number lat lon) result) ;;
              ret result
        end
    end.

Definition analyze_single_plot (cadastral_number : option string) (lat lon : pyval)
  : M dict :=
  try_except (analyze_single_plot_body cadastral_number lat lon)
             (fun e => ret (error_result e)).

(** [plots[:max_plots]], as the list the loop goes through.  A str is
    sliced and iterated by characters; a dict does not take a slice (a
    TypeError, or a KeyError where slices are hashable: the handler of
    [analyze_area] makes no difference between them). *)
Definition plots_to_visit (plots : pyval) (max_plots : Z) : outcome (list pyval) :=
  match plots with
  | PList l => Return (slice_to l max_plots)
  | PStr s => Return (map PStr (slice_to (utf8_chars s) max_plots))
  | PDict _ => Raise (Exn TypeError "unhashable type: 'slice'")
  | _ => Raise (Exn TypeError ("'" ++ type_name plots ++ "' object is not subscriptable")%string)
  end.

(** Whether the scanner analyses a plot: [continue] when it has no
    coordinates. *)
Definition has_coordinates (plot : pyval) : bool :=
  match get_plot_coordinates plot with
  | Some _ => true
  | None => false
  end.

(** The loop of [analyze_area]; [results] is the list appended to. *)
Fixpoint analyze_plots (plots : list pyval) (results : list dict) : M (list dict) :=
  match plots with
  | [] => ret results
  | plot :: rest =>
      match get_plot_coordinates plot with
      | None => analyze_plots rest results
      | Some (lat, lon) =>
          result <- analyze_single_plot None lat lon ;;
          emit (Sleep 2) ;;
          analyze_plots rest (results ++ [result])
      end
  end.

Definition analyze_area (min_lat min_lon max_lat max_lon : pyval) (max_plots : Z)
  : M (list dict) :=
  try_except
    (plots <- search_plots_in_area w min_lat min_lon max_lat max_lon max_plots ;;
     lift (py_len plots) ;;
     to_visit <- lift (plots_to_visit plots max_plots) ;;
     results <- analyze_plots to_visit [] ;;
     vacant_plots <- lift (vacant_plots_of results) ;;
     call (write_file w) (SaveAreaReport results vacant_plots) ;;
     ret results)
    (fun _ => ret []).

(** [find_suitable_plots] has no handler of its own: what the filter or
    the report raises reaches the caller. *)
Definition find_suitable_plots (min_lat min_lon max_lat max_lon : pyval)
    (min_area : number) (max_plots : Z) : M (list dict) :=
  all_results <- analyze_area min_lat min_lon max_lat max_lon max_plots ;;
  suitable_plots <- lift (select_suitable min_area all_results) ;;
  let suitable_plots := sort_by_score_reverse suitable_plots in
  call (write_file w) (SaveSuitableReport suitable_plots) ;;
  ret suitable_plots.

End Pipeline.

(** ** The results of the scanner's loop *)

(** [new] holds, in order, the results of analysing the plots of [located]
    at their coordinates, each analysis starting where the pause after the
    one before ended; [t] is the trace before the first and [t'] the trace
    after the last pause. *)
Fixpoint results_in_turn (rt : Runtime) (w : World) (output_dir : string)
    (located : list pyval) (new : list dict) (t t' : trace) : Prop :=
  match located, new with
  | [], [] => t' = t
  | plot :: located', result :: new' =>
      exists lat lon t1,
        get_plot_coordinates plot = Some (lat, lon)
        /\ analyze_single_plot rt w output_dir None lat lon t = (Return result, t1)
        /\ results_in_turn rt w output_dir located' new' (t1 ++ [Sleep 2]) t'
  | _, _ => False
  end.

(** ** [_save_result]: the name of the result file *)

(** [identifier.replace(':', '_').replace('/', '_')] *)
Definition safe_id (identifier : string) : string :=
  replace_char "/" "_" (replace_char ":" "_" identifier).

(** [f"{self.output_dir}/result_{safe_id}.json"] *)
Definition result_filename (output_dir identifier : string) : string :=
  (output_dir ++ "/result_" ++ safe_id identifier ++ ".json")%string.

(** The characters of a string that are [c]. *)
Fixpoint count_char (c : ascii) (s : string) : nat :=
  match s with
  | EmptyString => 0%nat
  | String c' rest => ((if Ascii.eqb c' c then 1 else 0) + count_char c rest)%nat
  end.

(** Without any brace. *)
Definition brace_free (s : string) : Prop :=
  count_char "{" s = 0%nat /\ count_char "}" s = 0%nat.

(** ** What the ranker may return *)

(** A plot as [find_suitable_plots] appends it: analysed with success, its
    [is_occupied] falsy, its area at least [min_area], and scored with the
    float of a table value. *)
Definition admitted (min_area : number) (plot : dict) : Prop :=
  py_eq_str (get_default plot "status" PNone) "success" = true
  /\ (exists analysis,
        get_default plot "analysis" (PDict []) = PDict analysis
        /\ truthy (get_default analysis "is_occupied" (PBool true)) = false)
  /\ (exists plot_details,
        get_default plot "plot_details" (PDict []) = PDict plot_details
        /\ py_ge (get_default plot_details "area" (PInt 0)) min_area = Return true)
  /\ (exists s, 10 <= s <= 100
                /\ dict_get plot "suitability_score" = Some (PFloat (float_of_Z s))).

(** A result of the analyzer has a judgement, a dict, exactly when its
    status is success, and its status is one of three. *)
Definition well_formed_result (result : dict) : Prop :=
  (dict_get result "status" = Some (PStr "success")
   /\ exists judgement, dict_get result "analysis" = Some (PDict judgement))
  \/ (dict_get result "status" = Some (PStr "not_found")
      /\ dict_get result "analysis" = None)
  \/ (dict_get result "status" = Some (PStr "error")
      /\ dict_get result "analysis" = None).

End UrbanPlotAnalysisPipeline.

(* ================================================================== *)
(** * test_api_availability.py *)
(* ================================================================== *)

Module TestApiAvailability.
Import Py Env.
Import RosreestrClient YandexMapsClient ClaudeVisionClient.

(** The centre of the city used by the tests: [59.9311] and [30.3609] as
    binary64 numbers. *)
Definition test_lat : pyval := PFloat (S754_finite false 8434552488371998 (-47)).
Definition test_lon : pyval := PFloat (S754_finite false 8545833620414556 (-48)).

(** [len(b)] of a [bytes] value. *)
Definition bytes_len (b : string) : Z := Z.of_nat (String.length b).

Section Tests.
Variable rt : Runtime.
Variable w : World.
(** [os.getenv("ANTHROPIC_API_KEY")]. *)
Variable anthropic_key : option string.
(** The PNG that [test_claude_vision_api] draws with PIL. *)
Variable test_image : string.

(** [test_rosreestr_api]; what it prints is left out. *)
Definition test_rosreestr_api : M bool :=
  try_except
    (plot <- get_plot_by_coordinates w test_lat test_lon ;;
     if truthy plot
     then (let details := get_plot_details plot in ret true)
     else ret true)
    (fun _ => ret false).

(** [test_yandex_maps_api]: no [save_path] is given. *)
Definition test_yandex_maps_api : M bool :=
  try_except
    (image <- get_satellite_image w test_lat test_lon 15 400 300 "" ;;
     match image with
     | Some image_data =>
         if truthy (PStr image_data) && (1000 <? bytes_len image_data)
         then ret true else ret false
     | None => ret false
     end)
    (fun _ => ret false).

(** [test_claude_vision_api]: without a key no request is made. *)
Definition test_claude_vision_api : M bool :=
  try_except
    (match anthropic_key with
     | None => ret false
     | Some key =>
         if negb (truthy (PStr key)) then ret false
         else
           result <- analyze_plot_occupancy rt w test_image
                       [("cadastral_number", PStr "TEST:00:0000000:00")] ;;
           if truthy (PDict result)
              && negb (match dict_get result "error" with Some _ => true | None => false end)
           then ret true else ret false
     end)
    (fun _ => ret false).

(** [test_all]: the three tests in order, then [all(results.values())]. *)
Definition test_all : M bool :=
  rosreestr <- test_rosreestr_api ;;
  yandex_maps <- test_yandex_maps_api ;;
  claude_vision <- test_claude_vision_api ;;
  ret (rosreestr && yandex_maps && claude_vision).

End Tests.
End TestApiAvailability.

(* ================================================================== *)
(** * Concrete runs *)
(* ================================================================== *)

Module Scenarios.
Import Py Env.
Import RosreestrClient YandexMapsClient ClaudeVisionClient UrbanPlotAnalysisPipeline.

(** [str.lower] on texts in Latin and Russian letters, read as UTF-8: the
    capitals A-Z, and the Cyrillic capitals U+0400 to U+042F, which are the
    two-byte sequences D0 80 to D0 AF. *)
Fixpoint lower_latin_cyrillic (s : string) : string :=
  match s with
  | EmptyString => EmptyString
  | String c1 tail =>
      let n1 := N_of_ascii c1 in
      match tail with
      | String c2 rest =>
          let n2 := N_of_ascii c2 in
          if (n1 =? 208)%N && (128 <=? n2)%N && (n2 <? 144)%N then
            String (ascii_of_N 209) (String (ascii_of_N (n2 + 16)) (lower_latin_cyrillic rest))
          else if (n1 =? 208)%N && (144 <=? n2)%N && (n2 <? 160)%N then
            String (ascii_of_N 208) (String (ascii_of_N (n2 + 32)) (lower_latin_cyrillic rest))
          else if (n1 =? 208)%N && (160 <=? n2)%N && (n2 <? 176)%N then
            String (ascii_of_N 209) (String (ascii_of_N (n2 - 32)) (lower_latin_cyrillic rest))
          else if (65 <=? n1)%N && (n1 <=? 90)%N then
            String (ascii_of_N (n1 + 32)) (lower_latin_cyrillic tail)
          else String c1 (lower_latin_cyrillic tail)
      | EmptyString =>
          if (65 <=? n1)%N && (n1 <=? 90)%N
          then String (ascii_of_N (n1 + 32)) EmptyString
          else String c1 EmptyString
      end
  end.

(** The runtime of the runs below.  None of them has the classifier answer
    with a JSON object, so the decoder is given for the empty object only. *)
Definition runtime : Runtime :=
  {| json_loads := fun s =>
       if String.eqb s "{}" then Return []
       else Raise (Exn ValueError "Expecting property name enclosed in double quotes");
     str_lower := lower_latin_cyrillic |}.

Definition output_dir : string := "output".

(** A registry record: a parcel of 6000 square metres with a centre. *)
Definition parcel : pyval :=
  PDict [ ("attrs", PDict [ ("cn", PStr "78:12:1234567:890");
                            ("area_value", PInt 6000);
                            ("address", PStr "Санкт-Петербург") ]);
          ("center", PDict [ ("coordinates", PList [PInt 30; PInt 60]) ]) ].

Definition found : outcome pyval := Return (PDict [("features", PList [parcel])]).

Definition nothing_found : outcome pyval := Return (PDict [("features", PList [])]).

Definition png : string := "PNG-bytes".

Definition service_down (what : string) : exn := Exn OtherError what.

(** A world in which each service always answers the same way; [disk_ok]
    tells which writes succeed. *)
Definition world (registry : outcome pyval) (imagery vision : outcome string)
    (disk_ok : event -> bool) : World :=
  {| registry_json := fun _ _ => registry;
     imagery_content := fun _ _ => imagery;
     image_open := fun bytes =>
       if String.eqb bytes "" then Raise (Exn OtherError "cannot identify image file")
       else Return tt;
     write_file := fun _ e =>
       if disk_ok e then Return tt
       else Raise (Exn OtherError "[Errno 28] No space left on device");
     vision_text := fun _ _ => vision;
     now_isoformat := fun _ => "2025-01-01T00:00:00" |}.

Definition disk_fine (e : event) : bool := true.

(** Images can be written, result files cannot. *)
Definition disk_full_for_results (e : event) : bool :=
  match e with
  | SaveResult _ _ => false
  | _ => true
  end.

Definition empty_registry : World :=
  world nothing_found (Return png) (Return "свободен") disk_fine.

Definition imagery_down : World :=
  world found (Raise (service_down "503 Server Error")) (Return "свободен") disk_fine.

Definition classifier_down : World :=
  world found (Return png) (Raise (service_down "529 Overloaded")) disk_fine.

Definition classifier_down_disk_full : World :=
  world found (Return png) (Raise (service_down "529 Overloaded")) disk_full_for_results.

(** The judgement written when the classifier raised. *)
Definition failed_judgement : dict :=
  [ ("error", PStr "529 Overloaded"); ("is_occupied", PNone); ("confidence", PStr "низкий") ].

Definition parcel_details : dict := get_plot_details parcel.

(** The result of analysing [parcel] while the classifier is down. *)
Definition inconclusive_result : dict :=
  success_result "2025-01-01T00:00:00" parcel_details (PInt 60) (PInt 30)
                 "output/images/plot_78_12_1234567_890.png" failed_judgement.

(** Scenario B of the specification: a vacant parcel of 6000 square metres,
    classified with high confidence, no buildings, suitable. *)
Definition scenario_B : dict :=
  [ ("status", PStr "success");
    ("plot_details", PDict [ ("cadastral_number", PStr "78:12:1234567:890");
                             ("area", PInt 6000) ]);
    ("analysis", PDict [ ("is_occupied", PBool false);
                         ("confidence", PStr "высокий");
                         ("buildings_detected", PBool false);
                         ("suitable_for_development", PBool true) ]) ].

(** Scenario C: as B, with 1500 square metres and medium confidence. *)
Definition scenario_C : dict :=
  [ ("status", PStr "success");
    ("plot_details", PDict [ ("cadastral_number", PStr "78:12:1234567:890");
                             ("area", PInt 1500) ]);
    ("analysis", PDict [ ("is_occupied", PBool false);
                         ("confidence", PStr "средний");
                         ("buildings_detected", PBool false);
                         ("suitable_for_development", PBool true) ]) ].

(** Three candidates as the filter leaves them, two of them with the same
    score. *)
Definition candidate (cadastral_number : string) (score : Z) : dict :=
  [ ("status", PStr "success");
    ("plot_details", PDict [("cadastral_number", PStr cadastral_number)]);
    ("suitability_score", PFloat (float_of_Z score)) ].

Definition first_of_40 : dict := candidate "78:01:0000001:1" 40.
Definition the_70 : dict := candidate "78:01:0000001:2" 70.
Definition second_of_40 : dict := candidate "78:01:0000001:3" 40.

(** A registry record whose area is [null], and one whose cadastral
    number is a number. *)
Definition parcel_without_area : pyval :=
  PDict [ ("attrs", PDict [ ("cn", PStr "78:12:1234567:891");
                            ("area_value", PNone) ]);
          ("center", PDict [ ("coordinates", PList [PInt 30; PInt 60]) ]) ].

Definition parcel_with_numeric_cn : pyval :=
  PDict [ ("attrs", PDict [ ("cn", PInt 781212345); ("area_value", PInt 6000) ]);
          ("center", PDict [ ("coordinates", PList [PInt 30; PInt 60]) ]) ].

(** A record with a centre that cannot be unpacked and a usable extent. *)
Definition parcel_with_null_center : dict :=
  [ ("center", PNone);
    ("extent", PDict [ ("xmin", PInt 29); ("xmax", PInt 31);
                       ("ymin", PInt 59); ("ymax", PInt 61) ]) ].

(** A model answer without any JSON object in it. *)
Definition prose_answer : string := "участок свободен, построек не видно".

(** The registry holds the parcel without an area, and the classifier
    answers in prose. *)
Definition area_missing : World :=
  world (Return (PDict [("features", PList [parcel_without_area])]))
        (Return png) (Return prose_answer) disk_fine.

Definition numeric_cn : World :=
  world (Return (PDict [("features", PList [parcel_with_numeric_cn])]))
        (Return png) (Return prose_answer) disk_fine.

(** The result of analysing [parcel_without_area] in that world. *)
Definition result_without_area : dict :=
  success_result "2025-01-01T00:00:00" (get_plot_details parcel_without_area)
                 (PInt 60) (PInt 30) "output/images/plot_78_12_1234567_891.png"
                 (_parse_response runtime prose_answer).

(** The registry holds the sample parcel and the classifier answers in
    prose. *)
Definition prose_classifier : World :=
  world found (Return png) (Return prose_answer) disk_fine.

(** Three parcels of one area, told apart by their latitude; the first
    and the third have areas of the same tier. *)
Definition parcel_at (cadastral_number : string) (area lat : Z) : pyval :=
  PDict [ ("attrs", PDict [ ("cn", PStr cadastral_number); ("area_value", PInt area) ]);
          ("center", PDict [ ("coordinates", PList [PInt 30; PInt lat]) ]) ].

Definition parcel_1 : pyval := parcel_at "78:01:0000001:1" 1500 60.
Definition parcel_2 : pyval := parcel_at "78:01:0000001:2" 6000 61.
Definition parcel_3 : pyval := parcel_at "78:01:0000001:3" 1200 62.

(** The registry answers the area request with the three parcels and a
    request at a point with the parcel of that latitude. *)
Definition three_parcels_registry (t : trace) (e : event) : outcome pyval :=
  match e with
  | RegistryInArea _ _ _ _ _ =>
      Return (PDict [("features", PList [parcel_1; parcel_2; parcel_3])])
  | RegistryByPoint (PInt lat) _ =>
      if lat =? 60 then Return (PDict [("features", PList [parcel_1])])
      else if lat =? 61 then Return (PDict [("features", PList [parcel_2])])
      else if lat =? 62 then Return (PDict [("features", PList [parcel_3])])
      else nothing_found
  | _ => nothing_found
  end.

Definition three_parcels : World :=
  {| registry_json := three_parcels_registry;
     imagery_content := fun _ _ => Return png;
     image_open := fun _ => Return tt;
     write_file := fun _ _ => Return tt;
     vision_text := fun _ _ => Return prose_answer;
     now_isoformat := fun _ => "2025-01-01T00:00:00" |}.

(** The cadastral number of a result. *)
Definition cadastral_number_of (result : dict) : outcome pyval :=
  py_get (get_default result "plot_details" (PDict [])) "cadastral_number" PNone.

(** An answer whose object holds an object that holds an object. *)
Definition answer_nested_twice : string := "{a: {b: {c: 1}}}".

(** An answer with a flat JSON object between two sentences. *)
Definition answer_with_object : string := "Вот ответ: {a: 1} Спасибо.".

(** Area reports cannot be written. *)
Definition disk_full_for_area_reports (e : event) : bool :=
  match e with
  | SaveAreaReport _ _ => false
  | _ => true
  end.

Definition classifier_down_no_area_report : World :=
  world found (Return png) (Raise (service_down "529 Overloaded"))
        disk_full_for_area_reports.

End Scenarios.

(* ================================================================== *)
(** * Properties *)
(* ================================================================== *)

Import Py Env.
Import RosreestrClient YandexMapsClient ClaudeVisionClient UrbanPlotAnalysisPipeline.

(** ** Call counts *)

Lemma calls_snoc (which : event -> bool) (t : trace) (e : event) :
  calls which (t ++ [e]) = (calls which t + (if which e then 1 else 0))%nat.
Proof.
  unfold calls. rewrite filter_app, length_app. simpl.
  destruct (which e); reflexivity.
Qed.

Lemma calls_snoc_other (which : event -> bool) (t : trace) (e : event) :
  which e = false -> calls which (t ++ [e]) = calls which t.
Proof.
  intros H. rewrite calls_snoc, H. lia.
Qed.

(** ** The gateways never raise *)

Section Gateways.
Variable rt : Runtime.
Variable w : World.

Lemma get_plot_by_coordinates_returns (lat lon : pyval) (t : trace) :
  exists v, get_plot_by_coordinates w lat lon t = (Return v, t ++ [RegistryByPoint lat lon]).
Proof.
  unfold get_plot_by_coordinates, try_except, bind, call, lift, ret.
  destruct (registry_json w t (RegistryByPoint lat lon)) as [data | e]; [| eauto].
  destruct (py_get data "features" PNone) as [features | e]; [| eauto].
  destruct (truthy features); [| eauto].
  destruct (py_subscript data "features") as [fs | e]; [| eauto].
  destruct (py_first fs); eauto.
Qed.

Lemma get_plot_by_cadastral_number_returns (cn : string) (t : trace) :
  exists v, get_plot_by_cadastral_number w cn t = (Return v, t ++ [RegistryById cn]).
Proof.
  unfold get_plot_by_cadastral_number, try_except, bind, call, ret.
  destruct (registry_json w t (RegistryById cn)) as [data | e]; [| eauto].
  destruct (truthy data); eauto.
Qed.

Lemma get_satellite_image_returns (lat lon : pyval) (zoom width height : Z)
    (save_path : string) (t : trace) :
  exists image t', get_satellite_image w lat lon zoom width height save_path t
                   = (Return image, t').
Proof.
  unfold get_satellite_image, try_except, bind, call, lift, ret.
  destruct (imagery_content w t _) as [image_data | e]; [| eauto].
  destruct (image_open w image_data); [| eauto].
  destruct (truthy (PStr save_path)); [| eauto].
  destruct (write_file w _ _); eauto.
Qed.

(** A request that raises makes the imagery gateway answer [None]. *)
Lemma get_satellite_image_request_raises (lat lon : pyval) (zoom width height : Z)
    (save_path : string) (t : trace) (e : exn) :
  imagery_content w t (ImageryGet lat lon zoom width height) = Raise e ->
  get_satellite_image w lat lon zoom width height save_path t
  = (Return None, t ++ [ImageryGet lat lon zoom width height]).
Proof.
  intros H. unfold get_satellite_image, try_except, bind, call, ret.
  rewrite H. reflexivity.
Qed.

(** A payload that is no image makes it answer [None] as well. *)
Lemma get_satellite_image_not_an_image (lat lon : pyval) (zoom width height : Z)
    (save_path : string) (t : trace) (payload : string) (e : exn) :
  imagery_content w t (ImageryGet lat lon zoom width height) = Return payload ->
  image_open w payload = Raise e ->
  get_satellite_image w lat lon zoom width height save_path t
  = (Return None, t ++ [ImageryGet lat lon zoom width height]).
Proof.
  intros H1 H2. unfold get_satellite_image, try_except, bind, call, lift, ret.
  rewrite H1, H2. reflexivity.
Qed.

(** What the classifier gateway returns when the model call raises. *)
Lemma analyze_plot_occupancy_raises (image_data : string) (plot_details : dict)
    (t : trace) (e : exn) :
  vision_text w t (VisionCreate image_data plot_details) = Raise e ->
  analyze_plot_occupancy rt w image_data plot_details t
  = (Return [ ("error", PStr (exn_msg e)); ("is_occupied", PNone);
              ("confidence", PStr "низкий") ],
     t ++ [VisionCreate image_data plot_details]).
Proof.
  intros H. unfold analyze_plot_occupancy, try_except, bind, call, ret.
  rewrite H. reflexivity.
Qed.

Lemma analyze_plot_occupancy_returns (image_data : string) (plot_details : dict)
    (t : trace) :
  exists judgement,
    analyze_plot_occupancy rt w image_data plot_details t
    = (Return judgement, t ++ [VisionCreate image_data plot_details]).
Proof.
  unfold analyze_plot_occupancy, try_except, bind, call, ret.
  destruct (vision_text w t _); eauto.
Qed.

End Gateways.

(** ** The registry step of the analyzer *)

Section Lookup.
Variable w : World.

(** Without a cadastral number and without two truthy coordinates the
    registry step raises at once. *)
Lemma lookup_plot_without_identity (cn : option string) (lat lon : pyval) (t : trace) :
  cadastral_given cn = false ->
  truthy lat && truthy lon = false ->
  lookup_plot w cn lat lon t = (Raise missing_identity, t).
Proof.
  intros Hcn Hll. unfold lookup_plot, cadastral_given in *.
  destruct cn as [cn |].
  - rewrite Hcn, Hll. reflexivity.
  - rewrite Hll. reflexivity.
Qed.

(** The registry step makes at most one call, to the registry. *)
Lemma lookup_plot_trace (cn : option string) (lat lon : pyval) (t t1 : trace)
    (o : outcome pyval) :
  lookup_plot w cn lat lon t = (o, t1) ->
  t1 = t \/ exists e, is_registry_call e = true /\ t1 = t ++ [e].
Proof.
  unfold lookup_plot. intros H.
  assert (Hpoint : forall o1 t2,
            (if truthy lat && truthy lon then get_plot_by_coordinates w lat lon
             else raise missing_identity) t = (o1, t2) ->
            t2 = t \/ exists e, is_registry_call e = true /\ t2 = t ++ [e]).
  { intros o1 t2 H1. destruct (truthy lat && truthy lon).
    - destruct (get_plot_by_coordinates_returns w lat lon t) as [v Hv].
      rewrite Hv in H1. inversion H1; subst. right. eexists. split; [| reflexivity].
      reflexivity.
    - unfold raise in H1. inversion H1; subst. now left. }
  destruct cn as [cn |].
  - destruct (truthy (PStr cn)).
    + destruct (get_plot_by_cadastral_number_returns w cn t) as [v Hv].
      rewrite Hv in H. inversion H; subst. right. eexists. split; [| reflexivity].
      reflexivity.
    + eapply Hpoint; exact H.
  - eapply Hpoint; exact H.
Qed.

Lemma lookup_plot_other_calls (which : event -> bool) (cn : option string)
    (lat lon : pyval) (t t1 : trace) (o : outcome pyval) :
  (forall e, is_registry_call e = true -> which e = false) ->
  lookup_plot w cn lat lon t = (o, t1) ->
  calls which t1 = calls which t.
Proof.
  intros Hwhich H. destruct (lookup_plot_trace _ _ _ _ _ _ H) as [-> | [e [He ->]]].
  - reflexivity.
  - apply calls_snoc_other. auto.
Qed.

End Lookup.

Lemma registry_is_not_imagery (e : event) :
  is_registry_call e = true -> is_imagery_call e = false.
Proof. destruct e; simpl; congruence. Qed.

Lemma registry_is_not_vision (e : event) :
  is_registry_call e = true -> is_vision_call e = false.
Proof. destruct e; simpl; congruence. Qed.

(** ** Zero is falsy *)

Lemma pow2_pos (k : Z) : 0 <= k -> 0 < 2 ^ k.
Proof. intros H. apply Z.pow_pos_nonneg; lia. Qed.

Lemma is_zero_falsy (v : pyval) : is_zero v = true -> truthy v = false.
Proof.
  intros H. destruct v as [| b | z | f | s | l | d]; try discriminate H.
  - destruct b; [discriminate H | reflexivity].
  - unfold is_zero in H. simpl in H. rewrite Z.mul_1_r in H.
    destruct (Z.compare_spec z 0); try discriminate H. subst. reflexivity.
  - destruct f as [s | s | | s m e]; [reflexivity | | discriminate H |].
    { destruct s; discriminate H. }
    exfalso. unfold is_zero in H. simpl in H.
    assert (Hpow : 0 < 2 ^ (e - Z.min e 0)) by (apply pow2_pos; lia).
    destruct (Z.compare_spec (cond_Zopp s (Z.pos m) * 2 ^ (e - Z.min e 0)) 0)
      as [Heq | Hlt | Hgt]; try discriminate H.
    apply Z.mul_eq_0 in Heq. destruct Heq as [Hm | Hp]; [| lia].
    destruct s; simpl in Hm; discriminate Hm.
Qed.

(** ** The per-parcel analyzer *)

Section Analyzer.
Variable rt : Runtime.
Variable w : World.
Variable output_dir : string.

Lemma analyze_single_plot_handles (cn : option string) (lat lon : pyval) (t : trace) :
  analyze_single_plot rt w output_dir cn lat lon t =
  match analyze_single_plot_body rt w output_dir cn lat lon t with
  | (Return result, t') => (Return result, t')
  | (Raise e, t') => (Return (error_result e), t')
  end.
Proof. reflexivity. Qed.

Lemma analyze_without_identity (cn : option string) (lat lon : pyval) (t : trace) :
  cadastral_given cn = false ->
  truthy lat && truthy lon = false ->
  analyze_single_plot_body rt w output_dir cn lat lon t = (Raise missing_identity, t)
  /\ analyze_single_plot rt w output_dir cn lat lon t = (Return (error_result missing_identity), t).
Proof.
  intros Hcn Hll.
  assert (Hbody : analyze_single_plot_body rt w output_dir cn lat lon t = (Raise missing_identity, t)).
  { unfold analyze_single_plot_body, bind.
    rewrite (lookup_plot_without_identity w cn lat lon t Hcn Hll). reflexivity. }
  split; [exact Hbody |].
  rewrite analyze_single_plot_handles, Hbody. reflexivity.
Qed.

Lemma analyze_single_plot_returns (cn : option string) (lat lon : pyval) (t : trace) :
  exists result t', analyze_single_plot rt w output_dir cn lat lon t = (Return result, t').
Proof.
  rewrite analyze_single_plot_handles.
  destruct (analyze_single_plot_body rt w output_dir cn lat lon t) as [[result | e] t'];
    eauto.
Qed.

(** C9.  The single-parcel analysis always returns a result: whatever the
    gateways do, the call ends in [Return]; an exception raised inside the
    [try] comes back as the result [{status: error, error: str(e)}]; and a
    call with neither a cadastral number nor a coordinate pair raises the
    invalid-argument error inside and returns it as such a result, without
    any call to the registry (the trace is unchanged). *)
Theorem analyze_single_plot_never_raises (cn : option string) (lat lon : pyval) (t : trace) :
  (exists result t', analyze_single_plot rt w output_dir cn lat lon t = (Return result, t'))
  /\ (forall e t', analyze_single_plot_body rt w output_dir cn lat lon t = (Raise e, t') ->
        analyze_single_plot rt w output_dir cn lat lon t
        = (Return [("status", PStr "error"); ("error", PStr (exn_msg e))], t'))
  /\ (cadastral_given cn = false -> lat = PNone -> lon = PNone ->
        analyze_single_plot_body rt w output_dir cn lat lon t = (Raise missing_identity, t)
        /\ analyze_single_plot rt w output_dir cn lat lon t
           = (Return [("status", PStr "error");
                      ("error", PStr "Either cadastral_number or (lat, lon) must be provided")],
              t)).
Proof.
  repeat split.
  - apply analyze_single_plot_returns.
  - intros e t' H. rewrite analyze_single_plot_handles, H. reflexivity.
  - subst. apply analyze_without_identity; auto.
  - subst. apply analyze_without_identity; auto.
Qed.

(** C10.  Without a cadastral number, a coordinate pair with a latitude or
    a longitude equal to zero is treated as no coordinate at all: the
    registry is not asked (the trace is unchanged) and the call returns the
    status=error result of the invalid-argument error, whatever the world
    holds. *)
Theorem zero_coordinate_is_no_coordinate (cn : option string) (lat lon : pyval) (t : trace) :
  cadastral_given cn = false ->
  is_zero lat = true \/ is_zero lon = true ->
  analyze_single_plot rt w output_dir cn lat lon t
  = (Return [("status", PStr "error");
             ("error", PStr "Either cadastral_number or (lat, lon) must be provided")],
     t).
Proof.
  intros Hcn Hzero.
  apply analyze_without_identity; [exact Hcn |].
  destruct Hzero as [H | H]; apply is_zero_falsy in H; rewrite H.
  - reflexivity.
  - apply andb_false_r.
Qed.

(** C3.  When the registry step returns no record (a falsy value: [None],
    or an empty record), the analysis returns the not_found result at once:
    its trace is the trace of the registry step, in which the number of
    imagery calls and of classification calls is what it was before the
    call, so none was made for this parcel. *)
Theorem not_found_short_circuit (cn : option string) (lat lon : pyval) (t t1 : trace)
    (plot_data : pyval) :
  lookup_plot w cn lat lon t = (Return plot_data, t1) ->
  truthy plot_data = false ->
  analyze_single_plot rt w output_dir cn lat lon t
  = (Return [("status", PStr "not_found");
             ("error", PStr "Plot not found in cadastral registry")], t1)
  /\ calls is_imagery_call t1 = calls is_imagery_call t
  /\ calls is_vision_call t1 = calls is_vision_call t.
Proof.
  intros Hlookup Hfalsy. repeat split.
  - rewrite analyze_single_plot_handles.
    unfold analyze_single_plot_body, bind. rewrite Hlookup, Hfalsy. reflexivity.
  - eapply lookup_plot_other_calls; [apply registry_is_not_imagery | exact Hlookup].
  - eapply lookup_plot_other_calls; [apply registry_is_not_vision | exact Hlookup].
Qed.

(** The analysis up to the imagery step, when the registry step found a
    record with coordinates and a cadastral number that is a string. *)
Lemma analyze_body_after_image (cn : option string) (lat lon : pyval) (t t1 t2 : trace)
    (plot_data lat' lon' : pyval) (filename : string) (image : option string) :
  lookup_plot w cn lat lon t = (Return plot_data, t1) ->
  truthy plot_data = true ->
  get_plot_coordinates plot_data = Some (lat', lon') ->
  image_filename (get_plot_details plot_data) = Return filename ->
  get_satellite_image w lat' lon' 18 800 600 (image_path_of output_dir filename) t1
  = (Return image, t2) ->
  analyze_single_plot_body rt w output_dir cn lat lon t =
  match image with
  | None => (Return (no_image_result (get_plot_details plot_data)), t2)
  | Some image_data =>
      if negb (truthy (PStr image_data))
      then (Return (no_image_result (get_plot_details plot_data)), t2)
      else
        (emit (Sleep 1) ;;
         analysis_result <-
           analyze_plot_occupancy rt w image_data (get_plot_details plot_data) ;;
         timestamp <- clock (now_isoformat w) ;;
         call (write_file w)
              (SaveResult (result_identifier cn lat' lon')
                 (success_result timestamp (get_plot_details plot_data) lat' lon'
                    (image_path_of output_dir filename) analysis_result)) ;;
         ret (success_result timestamp (get_plot_details plot_data) lat' lon'
                (image_path_of output_dir filename) analysis_result)) t2
  end.
Proof.
  intros Hlookup Htruthy Hcoords Hname Himage.
  unfold analyze_single_plot_body, bind, lift.
  rewrite Hlookup. cbv beta iota. rewrite Htruthy. cbn [negb].
  rewrite Hcoords. cbv beta iota. rewrite Hname. cbv beta iota. rewrite Himage.
  destruct image as [image_data |]; [| reflexivity].
  destruct (negb (truthy (PStr image_data))); reflexivity.
Qed.

(** C5.  When the registry step found a record, its coordinates were
    extracted, and the imagery gateway then came back without an image
    ([None], as it does when the request raises or the payload is no
    image), the analysis returns a result with status=error whose
    [plot_details] are the details read from the registry record, and which
    has no [analysis] entry. *)
Theorem imagery_failure_keeps_plot_details (cn : option string) (lat lon : pyval)
    (t t1 t2 : trace) (plot_data lat' lon' : pyval) (filename : string) :
  lookup_plot w cn lat lon t = (Return plot_data, t1) ->
  truthy plot_data = true ->
  get_plot_coordinates plot_data = Some (lat', lon') ->
  image_filename (get_plot_details plot_data) = Return filename ->
  get_satellite_image w lat' lon' 18 800 600 (image_path_of output_dir filename) t1
  = (Return None, t2) ->
  exists result,
    analyze_single_plot rt w output_dir cn lat lon t = (Return result, t2)
    /\ dict_get result "status" = Some (PStr "error")
    /\ dict_get result "error" = Some (PStr "Failed to get satellite image")
    /\ dict_get result "plot_details" = Some (PDict (get_plot_details plot_data))
    /\ dict_get result "analysis" = None.
Proof.
  intros Hlookup Htruthy Hcoords Hname Himage.
  exists (no_image_result (get_plot_details plot_data)).
  split; [| repeat split].
  rewrite analyze_single_plot_handles.
  rewrite (analyze_body_after_image _ _ _ _ _ _ _ _ _ _ _
             Hlookup Htruthy Hcoords Hname Himage).
  reflexivity.
Qed.

(** What follows a failed classification, step by step: the judgement of
    the handler, the assembled result, and the write of the result file,
    whose outcome decides between the result and the top-level handler. *)
Lemma analyze_after_failed_classification (cn : option string) (lat lon : pyval)
    (t t1 t2 : trace) (plot_data lat' lon' : pyval) (filename image_data : string)
    (e : exn) :
  lookup_plot w cn lat lon t = (Return plot_data, t1) ->
  truthy plot_data = true ->
  get_plot_coordinates plot_data = Some (lat', lon') ->
  image_filename (get_plot_details plot_data) = Return filename ->
  get_satellite_image w lat' lon' 18 800 600 (image_path_of output_dir filename) t1
  = (Return (Some image_data), t2) ->
  truthy (PStr image_data) = true ->
  vision_text w (t2 ++ [Sleep 1]) (VisionCreate image_data (get_plot_details plot_data))
  = Raise e ->
  let judgement :=
    [("error", PStr (exn_msg e)); ("is_occupied", PNone); ("confidence", PStr "низкий")] in
  let t3 := (t2 ++ [Sleep 1]) ++ [VisionCreate image_data (get_plot_details plot_data)] in
  let result :=
    success_result (now_isoformat w t3) (get_plot_details plot_data) lat' lon'
                   (image_path_of output_dir filename) judgement in
  let save := SaveResult (result_identifier cn lat' lon') result in
  analyze_single_plot rt w output_dir cn lat lon t =
  match write_file w t3 save with
  | Return _ => (Return result, t3 ++ [save])
  | Raise e' => (Return (error_result e'), t3 ++ [save])
  end.
Proof.
  intros Hlookup Htruthy Hcoords Hname Himage Hbytes Hvision. cbv zeta.
  rewrite analyze_single_plot_handles.
  rewrite (analyze_body_after_image _ _ _ _ _ _ _ _ _ _ _
             Hlookup Htruthy Hcoords Hname Himage).
  rewrite Hbytes. cbn [negb].
  unfold bind, emit.
  rewrite (analyze_plot_occupancy_raises rt w _ _ _ _ Hvision).
  unfold clock, call, ret.
  destruct (write_file w _ _); reflexivity.
Qed.

(** C4, as amended.  When the registry step, the coordinate extraction and
    the imagery fetch succeeded and the model call raises, the classifier
    gateway catches the exception and returns the judgement
    [{error: str(e), is_occupied: None, confidence: low}]; the analysis goes
    on, and returns the status=success result carrying that judgement
    whenever the result file is then written.  Only a failure of that write
    ends the analysis in the top-level handler, as status=error with the
    message of the write error. *)
Theorem classification_failure_is_downgraded (cn : option string) (lat lon : pyval)
    (t t1 t2 : trace) (plot_data lat' lon' : pyval) (filename image_data : string)
    (e : exn) :
  lookup_plot w cn lat lon t = (Return plot_data, t1) ->
  truthy plot_data = true ->
  get_plot_coordinates plot_data = Some (lat', lon') ->
  image_filename (get_plot_details plot_data) = Return filename ->
  get_satellite_image w lat' lon' 18 800 600 (image_path_of output_dir filename) t1
  = (Return (Some image_data), t2) ->
  truthy (PStr image_data) = true ->
  vision_text w (t2 ++ [Sleep 1]) (VisionCreate image_data (get_plot_details plot_data))
  = Raise e ->
  let judgement :=
    [("error", PStr (exn_msg e)); ("is_occupied", PNone); ("confidence", PStr "низкий")] in
  let t3 := (t2 ++ [Sleep 1]) ++ [VisionCreate image_data (get_plot_details plot_data)] in
  let result :=
    success_result (now_isoformat w t3) (get_plot_details plot_data) lat' lon'
                   (image_path_of output_dir filename) judgement in
  let save := SaveResult (result_identifier cn lat' lon') result in
  analyze_plot_occupancy rt w image_data (get_plot_details plot_data) (t2 ++ [Sleep 1])
  = (Return judgement, t3)
  /\ dict_get result "status" = Some (PStr "success")
  /\ dict_get result "analysis" = Some (PDict judgement)
  /\ (forall u, write_file w t3 save = Return u ->
        analyze_single_plot rt w output_dir cn lat lon t = (Return result, t3 ++ [save]))
  /\ (forall e', write_file w t3 save = Raise e' ->
        analyze_single_plot rt w output_dir cn lat lon t
        = (Return [("status", PStr "error"); ("error", PStr (exn_msg e'))], t3 ++ [save])).
Proof.
  intros Hlookup Htruthy Hcoords Hname Himage Hbytes Hvision. cbv zeta.
  pose proof (analyze_after_failed_classification _ _ _ _ _ _ _ _ _ _ _ _
                Hlookup Htruthy Hcoords Hname Himage Hbytes Hvision) as Hrun.
  cbv zeta in Hrun.
  split; [apply analyze_plot_occupancy_raises; exact Hvision |].
  split; [reflexivity |]. split; [reflexivity |]. split.
  - intros u Hsave. rewrite Hrun, Hsave. reflexivity.
  - intros e' Hsave. rewrite Hrun, Hsave. reflexivity.
Qed.

End Analyzer.

(** ** The suitability score *)

Lemma number_has_value (v : pyval) : is_number v = true -> exists x, xnum_of v = Some x.
Proof.
  destruct v as [| b | z | f | s | l | d]; try discriminate; intros _.
  - eexists; reflexivity.
  - eexists; reflexivity.
  - destruct f; eexists; reflexivity.
Qed.

(** On a number, [area >= n] returns, with the value of the table's test. *)
Lemma py_ge_number (area : pyval) (n : Z) :
  is_number area = true -> py_ge area (NInt n) = Return (at_least area n).
Proof.
  intros H. destruct (number_has_value area H) as [x Hx].
  unfold py_ge, num_compare, at_least. rewrite Hx. reflexivity.
Qed.

(** On a hashable value, the lookup in [confidence_map] gives the points of
    the table. *)
Lemma confidence_map_get_points (c : pyval) :
  hashable c = true -> confidence_map_get c = Return (confidence_points c).
Proof.
  destruct c as [| b | z | f | s | l | d]; try discriminate; intros _; try reflexivity.
  unfold confidence_map_get, confidence_points, py_eq_str.
  destruct (String.eqb s "высокий"); [reflexivity |].
  destruct (String.eqb s "средний"); [reflexivity |].
  destruct (String.eqb s "низкий"); reflexivity.
Qed.

Lemma confidence_points_cases (c : pyval) :
  confidence_points c = 30 \/ confidence_points c = 20 \/ confidence_points c = 10.
Proof.
  unfold confidence_points.
  destruct (py_eq_str c "высокий"); [now left |].
  destruct (py_eq_str c "средний"); [now (right; left) | now (right; right)].
Qed.

Lemma scoring_table_range (confidence area : pyval) (buildings_detected suitable : bool) :
  10 <= scoring_table confidence area buildings_detected suitable <= 100.
Proof.
  unfold scoring_table, area_points.
  destruct (confidence_points_cases confidence) as [-> | [-> | ->]];
    destruct (at_least area 5000), (at_least area 2000), (at_least area 1000),
             buildings_detected, suitable; lia.
Qed.

(** The float of a table value is that value. *)
Lemma score_float_exact (confidence area : pyval) (buildings_detected suitable : bool) :
  key_eqb (PFloat (float_of_Z (scoring_table confidence area buildings_detected suitable)))
          (PInt (scoring_table confidence area buildings_detected suitable)) = true.
Proof.
  unfold scoring_table, area_points.
  destruct (confidence_points_cases confidence) as [-> | [-> | ->]];
    destruct (at_least area 5000), (at_least area 2000), (at_least area 1000),
             buildings_detected, suitable; vm_compute; reflexivity.
Qed.

(** The function against the table, branch by branch: the float additions
    it makes are exact. *)
Lemma suitability_score_value (result analysis plot_details : dict) :
  get_default result "analysis" (PDict []) = PDict analysis ->
  get_default result "plot_details" (PDict []) = PDict plot_details ->
  hashable (get_default analysis "confidence" (PStr "низкий")) = true ->
  is_number (get_default plot_details "area" (PInt 0)) = true ->
  _calculate_suitability_score result
  = Return (PFloat (float_of_Z
      (scoring_table (get_default analysis "confidence" (PStr "низкий"))
                     (get_default plot_details "area" (PInt 0))
                     (truthy (get_default analysis "buildings_detected" (PBool true)))
                     (truthy (get_default analysis "suitable_for_development" (PBool false)))))).
Proof.
  intros Han Hpd Hhash Hnum.
  unfold _calculate_suitability_score. rewrite Han, Hpd. cbn [py_get obind].
  rewrite (confidence_map_get_points _ Hhash). cbn [obind].
  rewrite !(py_ge_number _ _ Hnum).
  unfold scoring_table, area_points.
  destruct (confidence_points_cases (get_default analysis "confidence" (PStr "низкий")))
    as [-> | [-> | ->]];
    destruct (at_least (get_default plot_details "area" (PInt 0)) 5000),
             (at_least (get_default plot_details "area" (PInt 0)) 2000),
             (at_least (get_default plot_details "area" (PInt 0)) 1000),
             (truthy (get_default analysis "buildings_detected" (PBool true))),
             (truthy (get_default analysis "suitable_for_development" (PBool false)));
    vm_compute; reflexivity.
Qed.

(** C1.  The suitability score is a function of the result alone (the
    embedded function takes no world and no trace).  For a result whose
    [analysis] and [plot_details] are dicts, whose confidence can be looked
    up in a dict and whose area is a number, it returns the float that
    equals the value [s] of the scoring table: 30/20/10 points for
    high/medium/low confidence, 30/20/10/0 points for an area of at least
    5000/2000/1000 or less, 20 points when no buildings were detected, 20
    points when the parcel is suitable for development, capped at 100.
    That value lies between 0 and 100, and for Scenario B it is 100. *)
Theorem suitability_score_follows_table (result analysis plot_details : dict) :
  get_default result "analysis" (PDict []) = PDict analysis ->
  get_default result "plot_details" (PDict []) = PDict plot_details ->
  hashable (get_default analysis "confidence" (PStr "низкий")) = true ->
  is_number (get_default plot_details "area" (PInt 0)) = true ->
  let s :=
    scoring_table (get_default analysis "confidence" (PStr "низкий"))
                  (get_default plot_details "area" (PInt 0))
                  (truthy (get_default analysis "buildings_detected" (PBool true)))
                  (truthy (get_default analysis "suitable_for_development" (PBool false))) in
  _calculate_suitability_score result = Return (PFloat (float_of_Z s))
  /\ key_eqb (PFloat (float_of_Z s)) (PInt s) = true
  /\ 0 <= s <= 100
  /\ _calculate_suitability_score Scenarios.scenario_B = Return (PFloat (float_of_Z 100)).
Proof.
  intros Han Hpd Hhash Hnum. cbv zeta.
  split; [apply suitability_score_value; assumption |].
  split; [apply score_float_exact |].
  split; [pose proof (scoring_table_range
                        (get_default analysis "confidence" (PStr "низкий"))
                        (get_default plot_details "area" (PInt 0))
                        (truthy (get_default analysis "buildings_detected" (PBool true)))
                        (truthy (get_default analysis "suitable_for_development"
                                   (PBool false)))); lia |].
  vm_compute. reflexivity.
Qed.

(** Scenario B is such a result. *)
Lemma suitability_score_scenario_B :
  _calculate_suitability_score Scenarios.scenario_B = Return (PFloat (float_of_Z 100))
  /\ key_eqb (PFloat (float_of_Z 100)) (PInt 100) = true.
Proof.
  pose proof (suitability_score_follows_table Scenarios.scenario_B
                [ ("is_occupied", PBool false);
                  ("confidence", PStr "высокий");
                  ("buildings_detected", PBool false);
                  ("suitable_for_development", PBool true) ]
                [ ("cadastral_number", PStr "78:12:1234567:890"); ("area", PInt 6000) ]
                eq_refl eq_refl eq_refl eq_refl) as H.
  cbv zeta in H. destruct H as [Hscore [Heq _]].
  split; [exact Hscore | exact Heq].
Defined.

(** ** The order of numbers *)

(** Scaling both sides of a comparison to a smaller common exponent does
    not change it. *)
Lemma compare_scaled (m1 e1 m2 e2 E : Z) :
  E <= e1 -> E <= e2 ->
  (m1 * 2 ^ (e1 - E) ?= m2 * 2 ^ (e2 - E))
  = (m1 * 2 ^ (e1 - Z.min e1 e2) ?= m2 * 2 ^ (e2 - Z.min e1 e2)).
Proof.
  intros H1 H2.
  set (e := Z.min e1 e2).
  assert (He : E <= e) by (unfold e; lia).
  assert (He1 : e <= e1) by (unfold e; lia).
  assert (He2 : e <= e2) by (unfold e; lia).
  replace (e1 - E) with ((e1 - e) + (e - E)) by lia.
  replace (e2 - E) with ((e2 - e) + (e - E)) by lia.
  rewrite !Z.pow_add_r by lia.
  rewrite !Z.mul_assoc.
  symmetry. apply Zmult_compare_compat_r.
  assert (0 < 2 ^ (e - E)) by (apply pow2_pos; lia). lia.
Qed.

Lemma xcompare_antisym (a b : xnum) :
  xcompare b a = option_map CompOpp (xcompare a b).
Proof.
  destruct a as [| s1 | m1 e1], b as [| s2 | m2 e2]; simpl; try reflexivity.
  - destruct s1, s2; reflexivity.
  - destruct s1; reflexivity.
  - destruct s2; reflexivity.
  - rewrite (Z.min_comm e2 e1). f_equal. apply Z.compare_antisym.
Qed.

Lemma key_ltb_asym (a b : pyval) : key_ltb a b = true -> key_ltb b a = false.
Proof.
  unfold key_ltb.
  destruct (xnum_of a) as [x |], (xnum_of b) as [y |]; try discriminate.
  rewrite (xcompare_antisym x y).
  destruct (xcompare x y) as [[| |] |]; simpl; congruence.
Qed.

(** Two numbers equal to a third are not less than one another. *)
Lemma xcompare_eq_eq (x y k : xnum) :
  xcompare x k = Some Eq -> xcompare y k = Some Eq -> xcompare x y = Some Eq.
Proof.
  destruct x as [| s1 | m1 e1], y as [| s2 | m2 e2], k as [| s3 | m3 e3];
    simpl; try discriminate;
    try (repeat match goal with s : bool |- _ => destruct s end;
         simpl; congruence).
  intros H1 H2. f_equal.
  injection H1 as H1. injection H2 as H2.
  set (E := Z.min e1 (Z.min e2 e3)).
  rewrite <- (compare_scaled m1 e1 m3 e3 E) in H1 by (unfold E; lia).
  rewrite <- (compare_scaled m2 e2 m3 e3 E) in H2 by (unfold E; lia).
  rewrite <- (compare_scaled m1 e1 m2 e2 E) by (unfold E; lia).
  apply Z.compare_eq in H1. apply Z.compare_eq in H2.
  rewrite H1, H2. apply Z.compare_refl.
Qed.

Lemma same_key_not_less (a b k : pyval) :
  key_eqb a k = true -> key_eqb b k = true -> key_ltb a b = false.
Proof.
  unfold key_eqb, key_ltb.
  destruct (xnum_of a) as [x |], (xnum_of b) as [y |], (xnum_of k) as [z |];
    try discriminate.
  intros H1 H2.
  destruct (xcompare x z) as [[| |] |] eqn:E1; try discriminate.
  destruct (xcompare y z) as [[| |] |] eqn:E2; try discriminate.
  rewrite (xcompare_eq_eq x y z E1 E2). reflexivity.
Qed.

(** ** The stable sort *)

Lemma insert_by_score_perm (x : dict) (l : list dict) :
  Permutation (x :: l) (insert_by_score x l).
Proof.
  induction l as [| y l IH]; simpl.
  - apply Permutation_refl.
  - destruct (key_ltb (sort_key x) (sort_key y)).
    + eapply Permutation_trans; [apply perm_swap |]. apply perm_skip. exact IH.
    + apply Permutation_refl.
Qed.

Lemma sort_by_score_reverse_perm (l : list dict) :
  Permutation l (sort_by_score_reverse l).
Proof.
  induction l as [| x l IH]; simpl.
  - apply perm_nil.
  - eapply Permutation_trans; [apply perm_skip; exact IH |].
    apply insert_by_score_perm.
Qed.

Lemma insert_by_score_head (x y : dict) (l : list dict) :
  not_before y x -> HdRel not_before y l -> HdRel not_before y (insert_by_score x l).
Proof.
  intros Hyx Hl. destruct l as [| z l]; simpl.
  - constructor. exact Hyx.
  - inversion Hl; subst.
    destruct (key_ltb (sort_key x) (sort_key z)); constructor; assumption.
Qed.

Lemma insert_by_score_sorted (x : dict) (l : list dict) :
  Sorted not_before l -> Sorted not_before (insert_by_score x l).
Proof.
  induction l as [| y l IH]; simpl; intros Hs.
  - repeat constructor.
  - inversion Hs as [| ? ? Hsl Hhd]; subst.
    destruct (key_ltb (sort_key x) (sort_key y)) eqn:E.
    + constructor; [apply IH; exact Hsl |].
      apply insert_by_score_head; [| exact Hhd].
      apply key_ltb_asym. exact E.
    + constructor; [exact Hs |]. constructor. exact E.
Qed.

Lemma sort_by_score_reverse_sorted (l : list dict) :
  Sorted not_before (sort_by_score_reverse l).
Proof.
  induction l as [| x l IH]; simpl.
  - constructor.
  - apply insert_by_score_sorted. exact IH.
Qed.

(** Inserting a plot leaves every class of plots that are not less than one
    another in its order, with the new plot first among them. *)
Lemma filter_insert_by_score (P : dict -> bool) (x : dict) (l : list dict) :
  (forall a b, P a = true -> P b = true -> key_ltb (sort_key a) (sort_key b) = false) ->
  filter P (insert_by_score x l) = filter P (x :: l).
Proof.
  intros Hclass. induction l as [| y l IH]; [reflexivity |].
  simpl insert_by_score.
  destruct (key_ltb (sort_key x) (sort_key y)) eqn:E; [| reflexivity].
  simpl filter in *. rewrite IH.
  destruct (P x) eqn:Px; [| reflexivity].
  destruct (P y) eqn:Py; [| reflexivity].
  rewrite (Hclass x y Px Py) in E. discriminate E.
Qed.

Lemma filter_sort_by_score_reverse (P : dict -> bool) (l : list dict) :
  (forall a b, P a = true -> P b = true -> key_ltb (sort_key a) (sort_key b) = false) ->
  filter P (sort_by_score_reverse l) = filter P l.
Proof.
  intros Hclass. induction l as [| x l IH]; [reflexivity |].
  simpl sort_by_score_reverse. rewrite (filter_insert_by_score P _ _ Hclass).
  simpl. rewrite IH. reflexivity.
Qed.

(** Keys other than NaN are totally ordered: "not less" is transitive. *)
Lemma xcompare_not_lt_trans (x y z : xnum) :
  x <> XNaN -> y <> XNaN -> z <> XNaN ->
  xcompare x y <> Some Lt -> xcompare y z <> Some Lt -> xcompare x z <> Some Lt.
Proof.
  destruct x as [| s1 | m1 e1], y as [| s2 | m2 e2], z as [| s3 | m3 e3];
    simpl; try congruence;
    try (repeat match goal with s : bool |- _ => destruct s end;
         simpl; congruence).
  intros _ _ _ H1 H2 H3.
  injection H3 as H3.
  set (E := Z.min e1 (Z.min e2 e3)) in *.
  rewrite <- (compare_scaled m1 e1 m3 e3 E) in H3 by (unfold E; lia).
  assert (H1' : (m1 * 2 ^ (e1 - E) ?= m2 * 2 ^ (e2 - E)) <> Lt).
  { rewrite (compare_scaled m1 e1 m2 e2 E) by (unfold E; lia). congruence. }
  assert (H2' : (m2 * 2 ^ (e2 - E) ?= m3 * 2 ^ (e3 - E)) <> Lt).
  { rewrite (compare_scaled m2 e2 m3 e3 E) by (unfold E; lia). congruence. }
  rewrite Z.compare_lt_iff in H3. rewrite Z.compare_lt_iff in H1', H2'. lia.
Qed.

Lemma ordered_value (v : pyval) :
  ordered v = true -> exists x, xnum_of v = Some x /\ x <> XNaN.
Proof.
  unfold ordered. destruct (xnum_of v) as [[| s | m e] |]; try discriminate;
    intros _; eexists; (split; [reflexivity | discriminate]).
Qed.

Lemma key_not_less_trans (a b c : pyval) :
  ordered a = true -> ordered b = true -> ordered c = true ->
  key_ltb a b = false -> key_ltb b c = false -> key_ltb a c = false.
Proof.
  intros Ha Hb Hc.
  destruct (ordered_value a Ha) as [x [Hx Nx]].
  destruct (ordered_value b Hb) as [y [Hy Ny]].
  destruct (ordered_value c Hc) as [z [Hz Nz]].
  unfold key_ltb. rewrite Hx, Hy, Hz. intros H1 H2.
  pose proof (xcompare_not_lt_trans x y z Nx Ny Nz) as Ht.
  destruct (xcompare x y) as [[| |] |]; try discriminate H1;
    destruct (xcompare y z) as [[| |] |]; try discriminate H2;
    destruct (xcompare x z) as [[| |] |]; try reflexivity;
    exfalso; apply Ht; congruence.
Qed.

Lemma key_eqb_ordered (a b : pyval) : key_eqb a b = true -> ordered a = true.
Proof.
  unfold key_eqb, ordered.
  destruct (xnum_of a) as [[| s | m e] |]; try discriminate; try reflexivity.
  destruct (xnum_of b); discriminate.
Qed.

(** With ordered keys the sorted list is descending throughout: every plot
    stands before all plots of a smaller key. *)
Lemma insert_by_score_strongly_sorted (x : dict) (l : list dict) :
  ordered (sort_key x) = true ->
  Forall (fun y => ordered (sort_key y) = true) l ->
  StronglySorted not_before l -> StronglySorted not_before (insert_by_score x l).
Proof.
  intros Hx. induction l as [| y l IH]; simpl; intros Hord Hs.
  - repeat constructor.
  - inversion Hord as [| ? ? Hy Hl]; subst.
    inversion Hs as [| ? ? Hsl Hall]; subst.
    destruct (key_ltb (sort_key x) (sort_key y)) eqn:E.
    + constructor; [apply IH; assumption |].
      eapply Permutation_Forall; [apply insert_by_score_perm |].
      constructor; [apply key_ltb_asym; exact E | exact Hall].
    + constructor; [exact Hs |].
      constructor; [exact E |].
      rewrite Forall_forall in *. intros z Hz.
      unfold not_before in *.
      eapply key_not_less_trans; [exact Hx | exact Hy | apply Hl; exact Hz | exact E |].
      apply Hall. exact Hz.
Qed.

Lemma sort_by_score_reverse_strongly_sorted (l : list dict) :
  Forall (fun y => ordered (sort_key y) = true) l ->
  StronglySorted not_before (sort_by_score_reverse l).
Proof.
  induction l as [| x l IH]; simpl; intros Hord.
  - constructor.
  - inversion Hord; subst.
    apply insert_by_score_strongly_sorted; [assumption | | apply IH; assumption].
    eapply Permutation_Forall; [apply sort_by_score_reverse_perm | assumption].
Qed.

(** ** What the filter of the ranker appends *)

Lemma obind_return {A B : Type} (c : outcome A) (k : A -> outcome B) (b : B) :
  obind c k = Return b -> exists a, c = Return a /\ k a = Return b.
Proof. destruct c; simpl; [eauto | discriminate]. Qed.

Lemma py_get_return (v : pyval) (k : string) (dflt x : pyval) :
  py_get v k dflt = Return x -> exists d, v = PDict d /\ x = get_default d k dflt.
Proof.
  destruct v; simpl; try discriminate. intros H. injection H as <-. eauto.
Qed.

Lemma confidence_map_get_return (c : pyval) (points : Z) :
  confidence_map_get c = Return points -> hashable c = true.
Proof. destruct c; simpl; try discriminate; reflexivity. Qed.

Lemma py_ge_return (a : pyval) (n : number) (b : bool) :
  py_ge a n = Return b -> is_number a = true.
Proof.
  unfold py_ge, num_compare.
  destruct a as [| ? | ? | ? | ? | ? | ?]; simpl; try discriminate; reflexivity.
Qed.

(** A score that is returned is the float of a table value. *)
Lemma suitability_score_returned (result : dict) (v : pyval) :
  _calculate_suitability_score result = Return v ->
  exists s, 10 <= s <= 100 /\ v = PFloat (float_of_Z s) /\ key_eqb v (PInt s) = true.
Proof.
  intros H. pose proof H as H0. unfold _calculate_suitability_score in H.
  apply obind_return in H. destruct H as [c [Hc H]].
  apply py_get_return in Hc. destruct Hc as [analysis [Han ->]].
  apply obind_return in H. destruct H as [points [Hpoints H]].
  apply confidence_map_get_return in Hpoints.
  apply obind_return in H. destruct H as [score1 [_ H]].
  apply obind_return in H. destruct H as [area [Harea H]].
  apply py_get_return in Harea. destruct Harea as [plot_details [Hpd ->]].
  apply obind_return in H. destruct H as [score2 [Htier _]].
  apply obind_return in Htier. destruct Htier as [big [Hbig _]].
  apply py_ge_return in Hbig.
  rewrite (suitability_score_value result analysis plot_details Han Hpd Hpoints Hbig) in H0.
  injection H0 as <-.
  eexists. split; [apply scoring_table_range |].
  split; [reflexivity | apply score_float_exact].
Qed.

Lemma dict_get_set (d : dict) (k : string) (v : pyval) :
  dict_get (dict_set d k v) k = Some v.
Proof.
  induction d as [| [k' v'] d IH]; simpl.
  - rewrite String.eqb_refl. reflexivity.
  - destruct (String.eqb k' k) eqn:E; simpl.
    + rewrite String.eqb_refl. reflexivity.
    + rewrite E. exact IH.
Qed.

(** An appended result is the result with its score set. *)
Lemma consider_appends (min_area : number) (result scored : dict) :
  consider min_area result = Return (Some scored) ->
  exists v, _calculate_suitability_score result = Return v
            /\ scored = dict_set result "suitability_score" v.
Proof.
  unfold consider.
  destruct (negb (py_eq_str (get_default result "status" PNone) "success"));
    [discriminate |].
  intros H.
  apply obind_return in H. destruct H as [occupied [_ H]].
  apply obind_return in H. destruct H as [area [_ H]].
  apply obind_return in H. destruct H as [enough [_ H]].
  apply obind_return in H. destruct H as [suitable [_ H]].
  destruct (negb (truthy occupied) && enough); [| discriminate].
  apply obind_return in H. destruct H as [v [Hv H]].
  injection H as <-. eauto.
Qed.

Lemma select_suitable_keys (min_area : number) (all_results candidates : list dict) :
  select_suitable min_area all_results = Return candidates ->
  Forall (fun x => ordered (sort_key x) = true) candidates.
Proof.
  revert candidates. induction all_results as [| r rest IH]; simpl; intros candidates H.
  - injection H as <-. constructor.
  - apply obind_return in H. destruct H as [chosen [Hchosen H]].
    apply obind_return in H. destruct H as [others [Hothers H]].
    injection H as <-. specialize (IH others Hothers).
    destruct chosen as [scored |]; [| exact IH].
    constructor; [| exact IH].
    apply consider_appends in Hchosen. destruct Hchosen as [v [Hv ->]].
    apply suitability_score_returned in Hv. destruct Hv as [s [_ [_ Heq]]].
    unfold sort_key, get_default. rewrite dict_get_set.
    eapply key_eqb_ordered. exact Heq.
Qed.

(** ** The ranker *)

(** What [find_suitable_plots] returns is the sorted list of what its
    filter kept of the scanner's results. *)
Lemma find_suitable_plots_ranks (rt : Runtime) (w : World) (output_dir : string)
    (min_lat min_lon max_lat max_lon : pyval) (min_area : number) (max_plots : Z)
    (t t' : trace) (ranked : list dict) :
  find_suitable_plots rt w output_dir min_lat min_lon max_lat max_lon min_area max_plots t
  = (Return ranked, t') ->
  exists all_results t1 candidates,
    analyze_area rt w output_dir min_lat min_lon max_lat max_lon max_plots t
    = (Return all_results, t1)
    /\ select_suitable min_area all_results = Return candidates
    /\ ranked = sort_by_score_reverse candidates.
Proof.
  unfold find_suitable_plots, bind, lift, call, ret. intros H.
  destruct (analyze_area rt w output_dir min_lat min_lon max_lat max_lon max_plots t)
    as [[all_results | e] t1]; [| discriminate H].
  destruct (select_suitable min_area all_results) as [candidates | e] eqn:Hsel;
    [| discriminate H].
  destruct (write_file w _ _); [| discriminate H].
  injection H as <- _.
  exists all_results, t1, candidates. repeat split. exact Hsel.
Qed.

Example ranking_with_a_tie :
  sort_by_score_reverse [Scenarios.first_of_40; Scenarios.the_70; Scenarios.second_of_40]
  = [Scenarios.the_70; Scenarios.first_of_40; Scenarios.second_of_40].
Proof. vm_compute. reflexivity. Qed.

Lemma precedes_filter (P : dict -> bool) (x y : dict) (l : list dict) :
  P x = true -> P y = true -> precedes x y l -> precedes x y (filter P l).
Proof.
  intros Px Py [l1 [l2 [l3 ->]]].
  exists (filter P l1), (filter P l2), (filter P l3).
  rewrite filter_app. simpl. rewrite Px. rewrite filter_app. simpl. rewrite Py.
  reflexivity.
Qed.

Lemma precedes_of_filter (P : dict -> bool) (x y : dict) (l : list dict) :
  precedes x y (filter P l) -> precedes x y l.
Proof.
  induction l as [| h l IH]; intros [a [b [c H]]].
  - destruct a; discriminate H.
  - simpl in H. destruct (P h) eqn:Ph.
    + destruct a as [| h' a].
      * simpl in H. injection H as -> H.
        assert (Hy : In y l).
        { assert (Hin : In y (filter P l)) by (rewrite H; apply in_or_app; right; now left).
          apply filter_In in Hin. apply Hin. }
        apply in_split in Hy. destruct Hy as [m1 [m2 ->]].
        exists [], m1, m2. reflexivity.
      * simpl in H. injection H as -> H.
        destruct IH as [l1 [l2 [l3 ->]]]; [exists a, b, c; exact H |].
        exists (h' :: l1), l2, l3. reflexivity.
    + destruct IH as [l1 [l2 [l3 ->]]]; [exists a, b, c; exact H |].
      exists (h :: l1), l2, l3. reflexivity.
Qed.

Lemma key_eqb_right_refl (a b : pyval) : key_eqb a b = true -> key_eqb b b = true.
Proof.
  unfold key_eqb.
  destruct (xnum_of a) as [x |], (xnum_of b) as [y |]; try discriminate.
  destruct y as [| s2 | m2 e2].
  - destruct x; discriminate.
  - intros _. destruct s2; reflexivity.
  - intros _. simpl. rewrite Z.compare_refl. reflexivity.
Qed.

(** Where the sort leaves a class of equal keys in its order, two plots of
    the class stand in the same order before and after. *)
Lemma same_order_of_equal_scores (x y : dict) (l : list dict) :
  key_eqb (sort_key x) (sort_key y) = true ->
  (precedes x y l <-> precedes x y (sort_by_score_reverse l)).
Proof.
  intros Hxy.
  assert (Hyy : has_score (sort_key y) y = true)
    by (unfold has_score; eapply key_eqb_right_refl; exact Hxy).
  assert (Hclass : forall a b, has_score (sort_key y) a = true ->
                               has_score (sort_key y) b = true ->
                               key_ltb (sort_key a) (sort_key b) = false)
    by (intros a b Ha Hb; eapply same_key_not_less; eassumption).
  pose proof (filter_sort_by_score_reverse (has_score (sort_key y)) l Hclass) as Hfilter.
  split; intros H.
  - apply (precedes_of_filter (has_score (sort_key y))). rewrite Hfilter.
    apply precedes_filter; assumption.
  - apply (precedes_of_filter (has_score (sort_key y))). rewrite <- Hfilter.
    apply precedes_filter; assumption.
Qed.

Lemma not_less_is_greater_or_equal (a b : pyval) :
  ordered a = true -> ordered b = true ->
  key_ltb a b = false ->
  key_ltb b a = true \/ key_eqb a b = true.
Proof.
  intros Ha Hb.
  destruct (ordered_value a Ha) as [x [Hx Nx]].
  destruct (ordered_value b Hb) as [y [Hy Ny]].
  assert (Hc : exists c, xcompare x y = Some c).
  { destruct x as [| s1 | m1 e1]; [contradiction Nx; reflexivity | |];
      (destruct y as [| s2 | m2 e2]; [contradiction Ny; reflexivity | |]);
      simpl; eexists; reflexivity. }
  destruct Hc as [c Hc].
  unfold key_ltb, key_eqb. rewrite Hx, Hy, (xcompare_antisym x y), Hc.
  destruct c; simpl; intros H; try discriminate H; auto.
Qed.

Lemma StronglySorted_among {A : Type} (P : A -> Prop) (R R' : A -> A -> Prop)
    (l : list A) :
  (forall a b, P a -> P b -> R a b -> R' a b) ->
  Forall P l -> StronglySorted R l -> StronglySorted R' l.
Proof.
  intros Himpl HP Hsorted. induction Hsorted as [| a l Hsorted IH Hall].
  - constructor.
  - inversion HP as [| ? ? Pa Pl]; subst. constructor; [apply IH; exact Pl |].
    rewrite Forall_forall in *. intros b Hb.
    apply Himpl; [exact Pa | apply Pl; exact Hb | apply Hall; exact Hb].
Qed.

(** C7.  The list [find_suitable_plots] returns is the list of candidates
    its filter selected from the results of the area, sorted by descending
    score with a stable sort.  The candidates' scores are numbers other
    than NaN.  The ranked list holds the candidates, nothing lost or added;
    every plot in it is followed by plots of a smaller or an equal score
    only; and for every score [k] the plots of score [k] appear in the
    ranked list in the order they had among the candidates, so two
    candidates with equal scores stand in the same relative order before
    and after. *)
Theorem ranking_is_descending_and_stable (rt : Runtime) (w : World) (output_dir : string)
    (min_lat min_lon max_lat max_lon : pyval) (min_area : number) (max_plots : Z)
    (t t' : trace) (ranked : list dict) :
  find_suitable_plots rt w output_dir min_lat min_lon max_lat max_lon min_area max_plots t
  = (Return ranked, t') ->
  exists all_results t1 candidates,
    analyze_area rt w output_dir min_lat min_lon max_lat max_lon max_plots t
    = (Return all_results, t1)
    /\ select_suitable min_area all_results = Return candidates
    /\ Forall (fun x => ordered (sort_key x) = true) candidates
    /\ Permutation candidates ranked
    /\ StronglySorted
         (fun a b => key_ltb (sort_key b) (sort_key a) = true
                     \/ key_eqb (sort_key a) (sort_key b) = true)
         ranked
    /\ (forall k, filter (has_score k) ranked = filter (has_score k) candidates)
    /\ (forall x y, key_eqb (sort_key x) (sort_key y) = true ->
                    (precedes x y candidates <-> precedes x y ranked)).
Proof.
  intros Hrun.
  destruct (find_suitable_plots_ranks _ _ _ _ _ _ _ _ _ _ _ _ Hrun)
    as [all_results [t1 [candidates [Harea [Hsel ->]]]]].
  pose proof (select_suitable_keys _ _ _ Hsel) as Hordered.
  exists all_results, t1, candidates.
  split; [exact Harea |]. split; [exact Hsel |]. split; [exact Hordered |].
  split; [apply sort_by_score_reverse_perm |].
  split; [| split].
  - apply (StronglySorted_among (fun x => ordered (sort_key x) = true) not_before).
    + intros a b Ha Hb Hab. apply not_less_is_greater_or_equal; assumption.
    + eapply Permutation_Forall; [apply sort_by_score_reverse_perm | exact Hordered].
    + apply sort_by_score_reverse_strongly_sorted. exact Hordered.
  - intros k. apply filter_sort_by_score_reverse.
    intros a b Ha Hb. unfold has_score in *.
    eapply same_key_not_less; eassumption.
  - intros x y Hxy. apply same_order_of_equal_scores. exact Hxy.
Qed.

(** Three parcels scored 70, 90 and 70: the second is ranked first, the
    other two keep their order. *)
Lemma three_parcels_ranking :
  exists ranked t',
    find_suitable_plots Scenarios.runtime Scenarios.three_parcels Scenarios.output_dir
      (PInt 59) (PInt 29) (PInt 63) (PInt 31) (NInt 1000) 10 []
    = (Return ranked, t')
    /\ map Scenarios.cadastral_number_of ranked
       = [ Return (PStr "78:01:0000001:2");
           Return (PStr "78:01:0000001:1");
           Return (PStr "78:01:0000001:3") ]
    /\ map sort_key ranked
       = [ PFloat (float_of_Z 90); PFloat (float_of_Z 70); PFloat (float_of_Z 70) ]
    /\ StronglySorted
         (fun a b => key_ltb (sort_key b) (sort_key a) = true
                     \/ key_eqb (sort_key a) (sort_key b) = true)
         ranked.
Proof.
  destruct (find_suitable_plots Scenarios.runtime Scenarios.three_parcels
              Scenarios.output_dir (PInt 59) (PInt 29) (PInt 63) (PInt 31)
              (NInt 1000) 10 []) as [[ranked | e] t'] eqn:E.
  - exists ranked, t'. split; [reflexivity |].
    split; [vm_compute in E; injection E as <- _; reflexivity |].
    split; [vm_compute in E; injection E as <- _; vm_compute; reflexivity |].
    destruct (ranking_is_descending_and_stable _ _ _ _ _ _ _ _ _ _ _ _ E)
      as [all_results [t1 [candidates [_ [_ [_ [_ [Hsorted _]]]]]]]].
    exact Hsorted.
  - vm_compute in E. discriminate E.
Defined.

(** ** Unknown occupancy *)

(** A judgement whose [is_occupied] is present and [None] passes the
    vacancy test: the default [True] of [get] is used for a missing key
    only, and [not None] is true. *)
Lemma null_occupancy_is_vacant (r analysis : dict) :
  py_eq_str (get_default r "status" PNone) "success" = true ->
  get_default r "analysis" (PDict []) = PDict analysis ->
  dict_get analysis "is_occupied" = Some PNone ->
  is_vacant_plot r = Return true.
Proof.
  intros Hstatus Han Hocc. unfold is_vacant_plot.
  rewrite Hstatus, Han. unfold py_get, get_default. rewrite Hocc. reflexivity.
Qed.

(** C2, on the code.  With the classifier down, the analysis of the sample
    parcel returns a status=success result whose judgement has
    [is_occupied = None]; the vacancy test of the area scanner keeps it, it
    is in the vacant list written to the area report, and the filter of the
    ranker keeps it as well. *)
Theorem null_occupancy_in_vacant_partition :
  fst (analyze_single_plot Scenarios.runtime Scenarios.classifier_down Scenarios.output_dir
         None (PInt 60) (PInt 30) [])
  = Return Scenarios.inconclusive_result
  /\ get_default Scenarios.inconclusive_result "analysis" (PDict [])
     = PDict Scenarios.failed_judgement
  /\ dict_get Scenarios.failed_judgement "is_occupied" = Some PNone
  /\ is_vacant_plot Scenarios.inconclusive_result = Return true
  /\ vacant_plots_of [Scenarios.inconclusive_result] = Return [Scenarios.inconclusive_result]
  /\ In (SaveAreaReport [Scenarios.inconclusive_result] [Scenarios.inconclusive_result])
        (snd (analyze_area Scenarios.runtime Scenarios.classifier_down Scenarios.output_dir
                PNone PNone PNone PNone 5 []))
  /\ select_suitable (NInt 1000) [Scenarios.inconclusive_result]
     = Return [dict_set Scenarios.inconclusive_result "suitability_score"
                        (PFloat (float_of_Z 40))].
Proof.
  split; [vm_compute; reflexivity |].
  split; [reflexivity |].
  split; [reflexivity |].
  split; [apply (null_occupancy_is_vacant _ Scenarios.failed_judgement); reflexivity |].
  split; [vm_compute; reflexivity |].
  split; [| vm_compute; reflexivity].
  vm_compute. do 8 right. left. reflexivity.
Qed.

(** C6, on the code.  The same result, whose [is_occupied] is [None] and
    not [False], is admitted by the ranker: a search over an area that
    holds the sample parcel returns it, with a score of 40. *)
Theorem null_occupancy_is_admitted :
  dict_get Scenarios.failed_judgement "is_occupied" = Some PNone
  /\ consider (NInt 1000) Scenarios.inconclusive_result
     = Return (Some (dict_set Scenarios.inconclusive_result "suitability_score"
                              (PFloat (float_of_Z 40))))
  /\ fst (find_suitable_plots Scenarios.runtime Scenarios.classifier_down
            Scenarios.output_dir PNone PNone PNone PNone (NInt 1000) 5 [])
     = Return [dict_set Scenarios.inconclusive_result "suitability_score"
                        (PFloat (float_of_Z 40))].
Proof.
  split; [reflexivity |]. split; vm_compute; reflexivity.
Qed.

(** ** The confidence of a judgement *)



(** ** Runs of the analyzer *)

(** The registry has no record at the point: not found, and neither the
    imagery gateway nor the classifier was called. *)
Lemma not_found_run :
  analyze_single_plot Scenarios.runtime Scenarios.empty_registry Scenarios.output_dir
    None (PInt 60) (PInt 30) []
  = (Return [("status", PStr "not_found");
             ("error", PStr "Plot not found in cadastral registry")],
     [RegistryByPoint (PInt 60) (PInt 30)])
  /\ calls is_imagery_call [RegistryByPoint (PInt 60) (PInt 30)] = 0%nat
  /\ calls is_vision_call [RegistryByPoint (PInt 60) (PInt 30)] = 0%nat.
Proof.
  exact (not_found_short_circuit Scenarios.runtime Scenarios.empty_registry
           Scenarios.output_dir None (PInt 60) (PInt 30) []
           [RegistryByPoint (PInt 60) (PInt 30)] PNone eq_refl eq_refl).
Defined.

(** Scenario D: the imagery request raises. *)
Lemma imagery_failure_run :
  exists result,
    analyze_single_plot Scenarios.runtime Scenarios.imagery_down Scenarios.output_dir
      None (PInt 60) (PInt 30) []
    = (Return result,
       [RegistryByPoint (PInt 60) (PInt 30); ImageryGet (PInt 60) (PInt 30) 18 800 600])
    /\ dict_get result "status" = Some (PStr "error")
    /\ dict_get result "error" = Some (PStr "Failed to get satellite image")
    /\ dict_get result "plot_details" = Some (PDict Scenarios.parcel_details)
    /\ dict_get result "analysis" = None.
Proof.
  exact (imagery_failure_keeps_plot_details Scenarios.runtime Scenarios.imagery_down
           Scenarios.output_dir None (PInt 60) (PInt 30) []
           [RegistryByPoint (PInt 60) (PInt 30)]
           [RegistryByPoint (PInt 60) (PInt 30); ImageryGet (PInt 60) (PInt 30) 18 800 600]
           Scenarios.parcel (PInt 60) (PInt 30) "plot_78_12_1234567_890.png"
           eq_refl eq_refl eq_refl eq_refl eq_refl).
Defined.

(** The classifier raises and the result file is written. *)
Lemma classification_failure_run :
  exists result t',
    analyze_single_plot Scenarios.runtime Scenarios.classifier_down Scenarios.output_dir
      None (PInt 60) (PInt 30) []
    = (Return result, t')
    /\ dict_get result "status" = Some (PStr "success")
    /\ dict_get result "analysis" = Some (PDict Scenarios.failed_judgement).
Proof.
  destruct (classification_failure_is_downgraded Scenarios.runtime Scenarios.classifier_down
              Scenarios.output_dir None (PInt 60) (PInt 30) []
              [RegistryByPoint (PInt 60) (PInt 30)]
              [RegistryByPoint (PInt 60) (PInt 30);
               ImageryGet (PInt 60) (PInt 30) 18 800 600;
               ImageWrite "output/images/plot_78_12_1234567_890.png"]
              Scenarios.parcel (PInt 60) (PInt 30) "plot_78_12_1234567_890.png"
              Scenarios.png (Scenarios.service_down "529 Overloaded")
              eq_refl eq_refl eq_refl eq_refl eq_refl eq_refl eq_refl)
    as [_ [Hstatus [Hanalysis [Hwritten _]]]].
  eexists. eexists. split; [apply (Hwritten tt); reflexivity |].
  split; [exact Hstatus | exact Hanalysis].
Defined.

(** The classifier raises and the result file cannot be written: every
    step before the classification succeeded, the judgement is the
    inconclusive one, and the analysis ends with status=error. *)
Lemma classification_failure_disk_full :
  lookup_plot Scenarios.classifier_down_disk_full None (PInt 60) (PInt 30) []
  = (Return Scenarios.parcel, [RegistryByPoint (PInt 60) (PInt 30)])
  /\ get_plot_coordinates Scenarios.parcel = Some (PInt 60, PInt 30)
  /\ get_satellite_image Scenarios.classifier_down_disk_full (PInt 60) (PInt 30) 18 800 600
       "output/images/plot_78_12_1234567_890.png" [RegistryByPoint (PInt 60) (PInt 30)]
     = (Return (Some Scenarios.png),
        [RegistryByPoint (PInt 60) (PInt 30);
         ImageryGet (PInt 60) (PInt 30) 18 800 600;
         ImageWrite "output/images/plot_78_12_1234567_890.png"])
  /\ vision_text Scenarios.classifier_down_disk_full
       [RegistryByPoint (PInt 60) (PInt 30);
        ImageryGet (PInt 60) (PInt 30) 18 800 600;
        ImageWrite "output/images/plot_78_12_1234567_890.png";
        Sleep 1]
       (VisionCreate Scenarios.png Scenarios.parcel_details)
     = Raise (Scenarios.service_down "529 Overloaded")
  /\ fst (analyze_single_plot Scenarios.runtime Scenarios.classifier_down_disk_full
            Scenarios.output_dir None (PInt 60) (PInt 30) [])
     = Return [("status", PStr "error");
               ("error", PStr "[Errno 28] No space left on device")].
Proof.
  repeat split; vm_compute; reflexivity.
Qed.

(** A point on the equator, in a world whose registry has a parcel for
    every request: the registry is not asked. *)
Lemma equator_run :
  analyze_single_plot Scenarios.runtime Scenarios.classifier_down Scenarios.output_dir
    None (PFloat (S754_zero false)) (PInt 30) []
  = (Return [("status", PStr "error");
             ("error", PStr "Either cadastral_number or (lat, lon) must be provided")],
     []).
Proof.
  exact (zero_coordinate_is_no_coordinate Scenarios.runtime Scenarios.classifier_down
           Scenarios.output_dir None (PFloat (S754_zero false)) (PInt 30) []
           eq_refl (or_introl eq_refl)).
Defined.

(** ** Further properties of the analyzer, the scanner and the filter *)

Section Further.
Variable rt : Runtime.
Variable w : World.
Variable output_dir : string.

Lemma analyze_single_plot_well_formed (cn : option string) (lat lon : pyval) (t : trace) :
  exists result t',
    analyze_single_plot rt w output_dir cn lat lon t = (Return result, t')
    /\ well_formed_result result.
Proof.
  unfold well_formed_result.
  rewrite analyze_single_plot_handles.
  unfold analyze_single_plot_body, bind, lift.
  destruct (lookup_plot w cn lat lon t) as [[plot_data | e] t1];
    [| do 2 eexists; split; [reflexivity | right; right; split; reflexivity]].
  destruct (truthy plot_data); cbn [negb];
    [| do 2 eexists; split; [reflexivity | right; left; split; reflexivity]].
  destruct (get_plot_coordinates plot_data) as [[lat' lon'] |];
    [| do 2 eexists; split; [reflexivity | right; right; split; reflexivity]].
  destruct (image_filename (get_plot_details plot_data)) as [filename | e];
    [| do 2 eexists; split; [reflexivity | right; right; split; reflexivity]].
  destruct (get_satellite_image_returns w lat' lon' 18 800 600
              (image_path_of output_dir filename) t1) as [image [t2 Himage]].
  rewrite Himage.
  destruct image as [image_data |];
    [| do 2 eexists; split; [reflexivity | right; right; split; reflexivity]].
  destruct (truthy (PStr image_data)); cbn [negb];
    [| do 2 eexists; split; [reflexivity | right; right; split; reflexivity]].
  unfold emit.
  destruct (analyze_plot_occupancy_returns rt w image_data (get_plot_details plot_data)
              (t2 ++ [Sleep 1])) as [judgement Hjudgement].
  rewrite Hjudgement. unfold clock, call, ret.
  destruct (write_file w _ _).
  - do 2 eexists. split; [reflexivity |]. left. split; [reflexivity |].
    eexists. reflexivity.
  - do 2 eexists. split; [reflexivity |]. right; right. split; reflexivity.
Qed.


(** Every analysis ends with one of the three statuses, and the result
    carries a judgement exactly when the status is success. *)
Theorem result_status_and_judgement (cn : option string) (lat lon : pyval) (t : trace) :
  exists result t',
    analyze_single_plot rt w output_dir cn lat lon t = (Return result, t')
    /\ ((dict_get result "status" = Some (PStr "success")
         /\ exists judgement, dict_get result "analysis" = Some (PDict judgement))
        \/ (dict_get result "status" = Some (PStr "not_found")
            /\ dict_get result "analysis" = None)
        \/ (dict_get result "status" = Some (PStr "error")
            /\ dict_get result "analysis" = None)).
Proof. exact (analyze_single_plot_well_formed cn lat lon t). Qed.

(** The scanner's loop never raises.  It keeps the results it was given
    and appends to them, in the order of the plots, the result of
    [analyze_single_plot] at the coordinates of each plot that has
    coordinates, with a pause of two seconds after each; a plot without
    coordinates leaves no result and no trace. *)
Theorem analyze_plots_one_result_per_located_plot (plots : list pyval)
    (results : list dict) (t : trace) :
  exists new t',
    analyze_plots rt w output_dir plots results t = (Return (results ++ new), t')
    /\ results_in_turn rt w output_dir (filter has_coordinates plots) new t t'
    /\ List.length new = List.length (filter has_coordinates plots).
Proof.
  revert results t. induction plots as [| plot rest IH]; intros results t.
  - exists [], t. rewrite app_nil_r. repeat split.
  - simpl analyze_plots. simpl filter.
    destruct (get_plot_coordinates plot) as [[lat lon] |] eqn:Hcoords.
    + assert (Hlocated : has_coordinates plot = true)
        by (unfold has_coordinates; rewrite Hcoords; reflexivity).
      rewrite Hlocated.
      destruct (analyze_single_plot_returns rt w output_dir None lat lon t)
        as [result [t1 Hrun]].
      unfold bind, emit. rewrite Hrun.
      destruct (IH (results ++ [result]) (t1 ++ [Sleep 2])) as [new [t' [Hout [Hturn Hlen]]]].
      exists (result :: new), t'.
      split; [rewrite Hout, <- app_assoc; reflexivity |].
      split; [| simpl; rewrite Hlen; reflexivity].
      simpl. exists lat, lon, t1. repeat split; assumption.
    + assert (Hlocated : has_coordinates plot = false)
        by (unfold has_coordinates; rewrite Hcoords; reflexivity).
      rewrite Hlocated. apply IH.
Qed.

End Further.

Lemma py_ge_returns (area : pyval) (n : number) :
  is_number area = true -> exists enough, py_ge area n = Return enough.
Proof.
  intros H. destruct (number_has_value area H) as [x Hx].
  unfold py_ge, num_compare. rewrite Hx.
  destruct n as [z | f]; simpl; [eauto |].
  destruct f; simpl; eauto.
Qed.

(** The filter of the ranker in full.  A result is appended exactly when
    its status is success, its [is_occupied] is falsy (a missing entry
    counts as occupied) and its area is at least [min_area]; it is appended
    with its score.  The [suitable_for_development] entry is not part of
    the test: it enters the score only. *)
Theorem filter_predicate (min_area : number) (result analysis plot_details : dict) :
  get_default result "analysis" (PDict []) = PDict analysis ->
  get_default result "plot_details" (PDict []) = PDict plot_details ->
  hashable (get_default analysis "confidence" (PStr "низкий")) = true ->
  is_number (get_default plot_details "area" (PInt 0)) = true ->
  exists enough,
    py_ge (get_default plot_details "area" (PInt 0)) min_area = Return enough
    /\ consider min_area result
       = Return
           (if py_eq_str (get_default result "status" PNone) "success"
               && negb (truthy (get_default analysis "is_occupied" (PBool true)))
               && enough
            then Some (dict_set result "suitability_score"
                   (PFloat (float_of_Z
                      (scoring_table
                         (get_default analysis "confidence" (PStr "низкий"))
                         (get_default plot_details "area" (PInt 0))
                         (truthy (get_default analysis "buildings_detected" (PBool true)))
                         (truthy (get_default analysis "suitable_for_development"
                                    (PBool false)))))))
            else None).
Proof.
  intros Han Hpd Hhash Hnum.
  destruct (py_ge_returns _ min_area Hnum) as [enough Hge].
  exists enough. split; [exact Hge |].
  unfold consider.
  destruct (py_eq_str (get_default result "status" PNone) "success"); [| reflexivity].
  cbn [negb andb]. rewrite Han, Hpd. cbn [py_get obind]. rewrite Hge. cbn [obind].
  destruct (negb (truthy (get_default analysis "is_occupied" (PBool true))) && enough);
    [| reflexivity].
  rewrite (suitability_score_value result analysis plot_details Han Hpd Hhash Hnum).
  reflexivity.
Qed.

(** Scenario B passes the filter with a score of 100. *)
Lemma filter_predicate_scenario_B :
  consider (NInt 1000) Scenarios.scenario_B
  = Return (Some (dict_set Scenarios.scenario_B "suitability_score"
                           (PFloat (float_of_Z 100)))).
Proof.
  destruct (filter_predicate (NInt 1000) Scenarios.scenario_B
              [ ("is_occupied", PBool false);
                ("confidence", PStr "высокий");
                ("buildings_detected", PBool false);
                ("suitable_for_development", PBool true) ]
              [ ("cadastral_number", PStr "78:12:1234567:890"); ("area", PInt 6000) ]
              eq_refl eq_refl eq_refl eq_refl) as [enough [Hge Hrun]].
  rewrite Hrun. injection Hge as <-. reflexivity.
Defined.

(** Scenario C: 20 + 10 + 20 + 20 = 70. *)
Theorem suitability_score_scenario_C :
  _calculate_suitability_score Scenarios.scenario_C = Return (PFloat (float_of_Z 70))
  /\ key_eqb (PFloat (float_of_Z 70)) (PInt 70) = true.
Proof. split; vm_compute; reflexivity. Qed.

(** ** The names of the files *)

Lemma safe_id_cons (c : ascii) (rest : string) :
  safe_id (String c rest)
  = String (if Ascii.eqb c ":" || Ascii.eqb c "/" then "_"%char else c) (safe_id rest).
Proof.
  unfold safe_id. simpl.
  destruct (Ascii.eqb c ":") eqn:E; simpl; [reflexivity |].
  destruct (Ascii.eqb c "/"); reflexivity.
Qed.

Lemma safe_id_no_separator (s : string) :
  count_char ":" (safe_id s) = 0%nat /\ count_char "/" (safe_id s) = 0%nat.
Proof.
  induction s as [| c rest [IH1 IH2]]; [split; reflexivity |].
  rewrite safe_id_cons. simpl. rewrite IH1, IH2.
  destruct (Ascii.eqb c ":") eqn:E1; simpl; [split; reflexivity |].
  destruct (Ascii.eqb c "/") eqn:E2; simpl; [split; reflexivity |].
  rewrite E1, E2. split; reflexivity.
Qed.

Lemma safe_id_of_clean (s : string) :
  count_char ":" s = 0%nat -> count_char "/" s = 0%nat -> safe_id s = s.
Proof.
  induction s as [| c rest IH]; [reflexivity |].
  simpl. intros H1 H2. rewrite safe_id_cons.
  destruct (Ascii.eqb c ":"); [discriminate H1 |].
  destruct (Ascii.eqb c "/"); [discriminate H2 |].
  simpl. rewrite IH; [reflexivity | exact H1 | exact H2].
Qed.

Lemma safe_id_length (s : string) : String.length (safe_id s) = String.length s.
Proof.
  induction s as [| c rest IH]; [reflexivity |].
  rewrite safe_id_cons. simpl. rewrite IH. reflexivity.
Qed.

Lemma safe_id_injective_on_numbers (a b : string) :
  count_char "_" a = 0%nat -> count_char "/" a = 0%nat ->
  count_char "_" b = 0%nat -> count_char "/" b = 0%nat ->
  safe_id a = safe_id b -> a = b.
Proof.
  revert b. induction a as [| c a IH]; intros b Ha1 Ha2 Hb1 Hb2 H.
  - destruct b as [| d b]; [reflexivity |]. rewrite safe_id_cons in H. discriminate H.
  - destruct b as [| d b]; [rewrite safe_id_cons in H; discriminate H |].
    rewrite !safe_id_cons in H. simpl in Ha1, Ha2, Hb1, Hb2.
    destruct (Ascii.eqb_spec c "_"); [discriminate Ha1 |].
    destruct (Ascii.eqb_spec c "/"); [discriminate Ha2 |].
    destruct (Ascii.eqb_spec d "_"); [discriminate Hb1 |].
    destruct (Ascii.eqb_spec d "/"); [discriminate Hb2 |].
    simpl in Ha1, Ha2, Hb1, Hb2.
    injection H as Hhead Htail.
    rewrite !orb_false_r in Hhead.
    assert (c = d).
    { destruct (Ascii.eqb_spec c ":"), (Ascii.eqb_spec d ":"); congruence. }
    subst d. f_equal. apply IH; assumption.
Qed.

Lemma safe_id_merges_separators (s : string) :
  safe_id (replace_char ":" "/" s) = safe_id s.
Proof.
  induction s as [| c rest IH]; [reflexivity |].
  simpl replace_char. rewrite !safe_id_cons, IH.
  destruct (Ascii.eqb c ":") eqn:E; simpl; rewrite ?E; reflexivity.
Qed.

Lemma append_length (x y : string) :
  String.length (x ++ y)%string = (String.length x + String.length y)%nat.
Proof. induction x as [| c x IH]; simpl; [reflexivity | rewrite IH; reflexivity]. Qed.

Lemma append_cancel_l (p x y : string) : (p ++ x)%string = (p ++ y)%string -> x = y.
Proof.
  induction p as [| c p IH]; simpl; intros H; [exact H |].
  injection H as H. apply IH. exact H.
Qed.

Lemma append_cancel_r (x y z : string) : (x ++ z)%string = (y ++ z)%string -> x = y.
Proof.
  intros H.
  assert (Hlen : String.length x = String.length y).
  { apply (f_equal String.length) in H. rewrite !append_length in H. lia. }
  revert y H Hlen. induction x as [| c x IH]; intros y H Hlen.
  - destruct y; [reflexivity | discriminate Hlen].
  - destruct y as [| d y]; [discriminate Hlen |].
    simpl in H, Hlen. injection H as -> H. f_equal. apply IH; [exact H | lia].
Qed.

(** The result file of [_save_result].  Its name holds the identifier with
    every colon and slash turned into an underscore: the sanitized
    identifier has neither, is as long as the identifier, and is the
    identifier itself when that has neither.  Identifiers that differ in
    their separators only get the same file, so a later result overwrites an
    earlier one; identifiers without underscore and slash, as cadastral
    numbers are, never share a file. *)
Theorem result_file_names (output_dir identifier : string) :
  count_char ":" (safe_id identifier) = 0%nat
  /\ count_char "/" (safe_id identifier) = 0%nat
  /\ String.length (safe_id identifier) = String.length identifier
  /\ safe_id (safe_id identifier) = safe_id identifier
  /\ result_filename output_dir (replace_char ":" "/" identifier)
     = result_filename output_dir identifier
  /\ (forall other,
        count_char "_" identifier = 0%nat -> count_char "/" identifier = 0%nat ->
        count_char "_" other = 0%nat -> count_char "/" other = 0%nat ->
        result_filename output_dir identifier = result_filename output_dir other ->
        identifier = other).
Proof.
  destruct (safe_id_no_separator identifier) as [H1 H2].
  split; [exact H1 |]. split; [exact H2 |].
  split; [apply safe_id_length |].
  split; [apply safe_id_of_clean; assumption |].
  split; [unfold result_filename; rewrite safe_id_merges_separators; reflexivity |].
  intros other Ha1 Ha2 Hb1 Hb2 H. unfold result_filename in H.
  apply safe_id_injective_on_numbers; try assumption.
  apply append_cancel_l in H. apply append_cancel_l in H.
  apply append_cancel_r in H. exact H.
Qed.

(** ** Which gateways an analysis calls *)

Lemma calls_app (which : event -> bool) (t l : trace) :
  calls which (t ++ l) = (calls which t + calls which l)%nat.
Proof. unfold calls. rewrite filter_app, length_app. reflexivity. Qed.

Section Discipline.
Variable rt : Runtime.
Variable w : World.
Variable output_dir : string.

(** A registry step that returns has made exactly one request; one that
    raises has made none. *)
Lemma lookup_plot_returned (cn : option string) (lat lon : pyval) (t t1 : trace)
    (o : outcome pyval) :
  lookup_plot w cn lat lon t = (o, t1) ->
  (exists e, o = Raise e /\ t1 = t)
  \/ (exists v e, o = Return v /\ is_registry_call e = true /\ t1 = t ++ [e]).
Proof.
  unfold lookup_plot. intros H.
  assert (Hpoint : forall o1 t2,
            (if truthy lat && truthy lon then get_plot_by_coordinates w lat lon
             else raise missing_identity) t = (o1, t2) ->
            (exists e, o1 = Raise e /\ t2 = t)
            \/ (exists v e, o1 = Return v /\ is_registry_call e = true /\ t2 = t ++ [e])).
  { intros o1 t2 H1. destruct (truthy lat && truthy lon).
    - destruct (get_plot_by_coordinates_returns w lat lon t) as [v Hv].
      rewrite Hv in H1. injection H1 as <- <-. right.
      exists v, (RegistryByPoint lat lon). repeat split.
    - unfold raise in H1. injection H1 as <- <-. left. eauto. }
  destruct cn as [cn |]; [| eapply Hpoint; exact H].
  destruct (truthy (PStr cn)); [| eapply Hpoint; exact H].
  destruct (get_plot_by_cadastral_number_returns w cn t) as [v Hv].
  rewrite Hv in H. injection H as <- <-. right.
  exists v, (RegistryById cn). repeat split.
Qed.

(** What a file name needs: a cadastral number that is a string. *)
Lemma image_filename_raises (plot_details : dict) (v : pyval) :
  dict_get plot_details "cadastral_number" = Some v ->
  (forall s, v <> PStr s) ->
  image_filename plot_details = Raise (no_attribute v "replace").
Proof.
  intros Hget Hnot. unfold image_filename, get_default. rewrite Hget.
  destruct v; try reflexivity. exfalso. eapply Hnot. reflexivity.
Qed.

(** A registry record whose cadastral number is not a string (a number,
    [null]) ends the analysis with status=error, the message being that the
    value has no [replace], right after the registry step: no image is
    requested and the classifier is not called. *)
Theorem cadastral_number_must_be_a_string (cn : option string) (lat lon : pyval)
    (t t1 : trace) (plot_data lat' lon' v : pyval) :
  lookup_plot w cn lat lon t = (Return plot_data, t1) ->
  truthy plot_data = true ->
  get_plot_coordinates plot_data = Some (lat', lon') ->
  dict_get (get_plot_details plot_data) "cadastral_number" = Some v ->
  (forall s, v <> PStr s) ->
  analyze_single_plot rt w output_dir cn lat lon t
  = (Return [ ("status", PStr "error");
              ("error", PStr ("'" ++ type_name v ++ "' object has no attribute 'replace'")) ],
     t1)
  /\ calls is_imagery_call t1 = calls is_imagery_call t
  /\ calls is_vision_call t1 = calls is_vision_call t.
Proof.
  intros Hlookup Htruthy Hcoords Hget Hnot. split.
  - rewrite analyze_single_plot_handles.
    unfold analyze_single_plot_body, bind, lift.
    rewrite Hlookup. cbv beta iota. rewrite Htruthy. cbn [negb].
    rewrite Hcoords. cbv beta iota.
    rewrite (image_filename_raises _ v Hget Hnot). reflexivity.
  - split.
    + eapply lookup_plot_other_calls; [apply registry_is_not_imagery | exact Hlookup].
    + eapply lookup_plot_other_calls; [apply registry_is_not_vision | exact Hlookup].
Qed.

Ltac count_calls He :=
  repeat rewrite calls_snoc;
  cbn [is_registry_call is_imagery_call is_vision_call];
  try rewrite He;
  try rewrite (registry_is_not_imagery _ He);
  try rewrite (registry_is_not_vision _ He);
  lia.

Ltac settle_calls He :=
  repeat split; try (intros H; discriminate H); try (intros _); count_calls He.

(** An analysis calls each gateway at most once, in the order registry,
    imagery, classifier: it asks for an image only after a registry
    request, and calls the classifier only after an image request.  A
    not_found result has requested no image; a success result has called
    all three. *)
Theorem gateway_call_discipline (cn : option string) (lat lon : pyval) (t : trace) :
  exists result t',
    analyze_single_plot rt w output_dir cn lat lon t = (Return result, t')
    /\ (calls is_registry_call t' <= calls is_registry_call t + 1)%nat
    /\ (calls is_imagery_call t' + calls is_registry_call t
        <= calls is_imagery_call t + calls is_registry_call t')%nat
    /\ (calls is_vision_call t' + calls is_imagery_call t
        <= calls is_vision_call t + calls is_imagery_call t')%nat
    /\ (calls is_imagery_call t <= calls is_imagery_call t')%nat
    /\ (calls is_vision_call t <= calls is_vision_call t')%nat
    /\ (dict_get result "status" = Some (PStr "not_found") ->
        calls is_imagery_call t' = calls is_imagery_call t)
    /\ (dict_get result "status" = Some (PStr "success") ->
        calls is_vision_call t' = (calls is_vision_call t + 1)%nat).
Proof.
  rewrite analyze_single_plot_handles.
  unfold analyze_single_plot_body, bind, lift.
  destruct (lookup_plot w cn lat lon t) as [o t1] eqn:Hlookup.
  destruct (lookup_plot_returned _ _ _ _ _ _ Hlookup)
    as [[e [-> ->]] | [plot_data [e [-> [He ->]]]]].
  { do 2 eexists. split; [reflexivity |].
    repeat split; try lia; intros H; discriminate H. }
  destruct (truthy plot_data); cbn [negb].
  2:{ do 2 eexists. split; [reflexivity |].
      settle_calls He. }
  destruct (get_plot_coordinates plot_data) as [[lat' lon'] |].
  2:{ do 2 eexists. split; [reflexivity |].
      settle_calls He. }
  destruct (image_filename (get_plot_details plot_data)) as [filename | ex].
  2:{ do 2 eexists. split; [reflexivity |].
      settle_calls He. }
  unfold get_satellite_image, try_except, bind, call, lift, ret, emit, clock.
  destruct (imagery_content w _ _) as [image_data | ex].
  2:{ do 2 eexists. split; [reflexivity |].
      settle_calls He. }
  destruct (image_open w image_data).
  2:{ do 2 eexists. split; [reflexivity |].
      settle_calls He. }
  destruct (truthy (PStr (image_path_of output_dir filename))).
  - destruct (write_file w _ (ImageWrite _)).
    2:{ do 2 eexists. split; [reflexivity |].
        settle_calls He. }
    destruct (truthy (PStr image_data)); cbn [negb].
    2:{ do 2 eexists. split; [reflexivity |].
        settle_calls He. }
    unfold analyze_plot_occupancy, try_except, bind, call, ret.
    destruct (vision_text w _ _); destruct (write_file w _ (SaveResult _ _));
      do 2 eexists; (split; [reflexivity |]);
      settle_calls He.
  - destruct (truthy (PStr image_data)); cbn [negb].
    2:{ do 2 eexists. split; [reflexivity |].
        settle_calls He. }
    unfold analyze_plot_occupancy, try_except, bind, call, ret.
    destruct (vision_text w _ _); destruct (write_file w _ (SaveResult _ _));
      do 2 eexists; (split; [reflexivity |]);
      settle_calls He.
Qed.

End Discipline.

(** The record with a numeric cadastral number. *)
Lemma numeric_cadastral_number_run :
  analyze_single_plot Scenarios.runtime Scenarios.numeric_cn Scenarios.output_dir
    None (PInt 60) (PInt 30) []
  = (Return [ ("status", PStr "error");
              ("error", PStr "'int' object has no attribute 'replace'") ],
     [RegistryByPoint (PInt 60) (PInt 30)])
  /\ calls is_imagery_call [RegistryByPoint (PInt 60) (PInt 30)] = 0%nat
  /\ calls is_vision_call [RegistryByPoint (PInt 60) (PInt 30)] = 0%nat.
Proof.
  refine (cadastral_number_must_be_a_string Scenarios.runtime Scenarios.numeric_cn
            Scenarios.output_dir None (PInt 60) (PInt 30) []
            [RegistryByPoint (PInt 60) (PInt 30)]
            Scenarios.parcel_with_numeric_cn (PInt 60) (PInt 30) (PInt 781212345)
            eq_refl eq_refl eq_refl eq_refl _).
  intros s H. discriminate H.
Defined.

(** ** The coordinates of a record *)

(** When a record has a [center], it alone decides: the [extent] is not
    looked at, also when the centre is unusable.  A centre given as a pair
    [lon, lat], directly or under [coordinates], comes back as
    [(lat, lon)]; a centre that is [null] or a number gives no coordinates. *)
Theorem center_decides_coordinates (record : dict) (center : pyval) :
  dict_get record "center" = Some center ->
  get_plot_coordinates (PDict record) = get_plot_coordinates (PDict [("center", center)])
  /\ (forall lon lat,
        center = PList [lon; lat] ->
        get_plot_coordinates (PDict record) = Some (lat, lon))
  /\ (forall point lon lat,
        center = PDict point ->
        dict_get point "coordinates" = Some (PList [lon; lat]) ->
        get_plot_coordinates (PDict record) = Some (lat, lon))
  /\ (center = PNone \/ is_number center = true ->
      get_plot_coordinates (PDict record) = None).
Proof.
  intros H.
  assert (Hbody : get_plot_coordinates_body (PDict record)
                  = get_plot_coordinates_body (PDict [("center", center)])).
  { unfold get_plot_coordinates_body. rewrite H. reflexivity. }
  unfold get_plot_coordinates. rewrite Hbody.
  split; [reflexivity |]. split; [| split].
  - intros lon lat ->. reflexivity.
  - intros point lon lat -> Hpoint. simpl. rewrite Hpoint. reflexivity.
  - intros [-> | Hnum]; [reflexivity |].
    destruct center; try discriminate Hnum; reflexivity.
Qed.

(** A record with a [null] centre and a usable extent has no coordinates. *)
Lemma null_center_hides_extent :
  get_plot_coordinates (PDict Scenarios.parcel_with_null_center) = None
  /\ get_plot_coordinates
       (PDict [("extent", get_default Scenarios.parcel_with_null_center "extent" PNone)])
     = Some (PFloat (float_of_Z 60), PFloat (float_of_Z 30)).
Proof.
  split; [| vm_compute; reflexivity].
  apply (center_decides_coordinates Scenarios.parcel_with_null_center PNone eq_refl).
  left. reflexivity.
Defined.

(** ** The JSON object searched in an answer *)

Lemma substring_0_0 (s : string) : substring 0 0 s = EmptyString.
Proof. destruct s; reflexivity. Qed.

Lemma count_char_append (c : ascii) (x y : string) :
  count_char c (x ++ y)%string = (count_char c x + count_char c y)%nat.
Proof. induction x as [| d x IH]; simpl; [reflexivity | rewrite IH; lia]. Qed.

Lemma append_assoc (x y z : string) : ((x ++ y) ++ z)%string = (x ++ y ++ z)%string.
Proof. induction x as [| c x IH]; simpl; [reflexivity | rewrite IH; reflexivity]. Qed.

(** What a successful scan has read. *)
Lemma scan_object_reads (s : string) :
  forall (inner : bool) (n : nat),
    scan_object inner s = Some n ->
    exists body after,
      s = (body ++ "}" ++ after)%string
      /\ substring 0 n s = (body ++ "}")%string
      /\ (count_char "{" (body ++ "}") + (if inner then 2 else 1))%nat
         = count_char "}" (body ++ "}").
Proof.
  induction s as [| c rest IH]; intros inner n H; [discriminate H |].
  simpl in H. unfold close_brace, open_brace in H.
  destruct (Ascii.eqb_spec c "}") as [-> | Hclose].
  - destruct inner.
    + destruct (scan_object false rest) as [m |] eqn:E; [| discriminate H].
      injection H as <-. destruct (IH false m E) as [body [after [-> [Hsub Hcount]]]].
      exists (String "}" body), after. simpl. simpl in Hsub. rewrite Hsub.
      split; [reflexivity |]. split; [reflexivity |].
      simpl in Hcount. lia.
    + injection H as <-. exists EmptyString, rest. simpl. rewrite substring_0_0.
      repeat split.
  - destruct (Ascii.eqb_spec c "{") as [-> | Hopen].
    + destruct inner; [discriminate H |].
      destruct (scan_object true rest) as [m |] eqn:E; [| discriminate H].
      injection H as <-. destruct (IH true m E) as [body [after [-> [Hsub Hcount]]]].
      exists (String "{" body), after. simpl. simpl in Hsub. rewrite Hsub.
      split; [reflexivity |]. split; [reflexivity |].
      simpl in Hcount. lia.
    + destruct (scan_object inner rest) as [m |] eqn:E; [| discriminate H].
      injection H as <-. destruct (IH inner m E) as [body [after [-> [Hsub Hcount]]]].
      exists (String c body), after. simpl. simpl in Hsub. rewrite Hsub.
      split; [reflexivity |]. split; [reflexivity |].
      destruct (Ascii.eqb_spec c "{"); [contradiction |].
      destruct (Ascii.eqb_spec c "}"); [contradiction |].
      simpl. exact Hcount.
Qed.

(** What [_parse_response] hands to the JSON decoder is a piece of the
    answer that starts with an opening brace, ends with a closing brace, and
    has as many opening as closing braces. *)
Theorem json_object_found_is_delimited (text json_str : string) :
  re_search_object text = Some json_str ->
  exists before body after,
    text = (before ++ json_str ++ after)%string
    /\ json_str = ("{" ++ body ++ "}")%string
    /\ count_char "{" json_str = count_char "}" json_str.
Proof.
  revert json_str. induction text as [| c rest IH]; intros json_str H; [discriminate H |].
  simpl in H. unfold open_brace in H.
  assert (Hskip : re_search_object rest = Some json_str ->
                  exists before body after,
                    String c rest = (before ++ json_str ++ after)%string
                    /\ json_str = ("{" ++ body ++ "}")%string
                    /\ count_char "{" json_str = count_char "}" json_str).
  { intros Hrest. destruct (IH json_str Hrest) as [before [body [after [-> [Hjs Hc]]]]].
    exists (String c before), body, after. repeat split; assumption. }
  destruct (Ascii.eqb_spec c "{") as [-> | Hc]; [| exact (Hskip H)].
  destruct (scan_object false rest) as [n |] eqn:E; [| exact (Hskip H)].
  injection H as <-.
  destruct (scan_object_reads rest false n E) as [body [after [-> [Hsub Hcount]]]].
  exists EmptyString, body, after. rewrite Hsub. simpl.
  split; [rewrite append_assoc; reflexivity |].
  split; [reflexivity |]. simpl in Hcount. lia.
Qed.

Lemma json_object_found_in_answer :
  exists before body after,
    Scenarios.answer_with_object = (before ++ "{a: 1}" ++ after)%string
    /\ "{a: 1}" = ("{" ++ body ++ "}")%string
    /\ count_char "{" "{a: 1}" = count_char "}" "{a: 1}".
Proof.
  exact (json_object_found_is_delimited Scenarios.answer_with_object "{a: 1}" eq_refl).
Defined.

Lemma re_search_object_skips (before rest : string) :
  count_char "{" before = 0%nat ->
  re_search_object (before ++ rest) = re_search_object rest.
Proof.
  induction before as [| c before IH]; simpl; intros H; [reflexivity |].
  unfold open_brace. destruct (Ascii.eqb c "{"); [discriminate H |].
  apply IH. exact H.
Qed.

Lemma scan_object_flat (body after : string) :
  brace_free body ->
  scan_object false (body ++ "}" ++ after) = Some (S (String.length body))
  /\ substring 0 (S (String.length body)) (body ++ "}" ++ after) = (body ++ "}")%string.
Proof.
  induction body as [| c body IH]; intros [Hopen Hclose].
  - simpl. rewrite substring_0_0. split; reflexivity.
  - simpl in Hopen, Hclose. simpl. unfold close_brace, open_brace.
    destruct (Ascii.eqb c "}"); [discriminate Hclose |].
    destruct (Ascii.eqb c "{"); [discriminate Hopen |].
    destruct (IH (conj Hopen Hclose)) as [Hscan Hsub].
    simpl in Hscan, Hsub. rewrite Hscan, Hsub. split; reflexivity.
Qed.

(** A flat JSON object in the answer is found, whatever follows it and
    whatever precedes it without an opening brace: it is the text handed to
    the decoder, and the judgement is what the decoder makes of it. *)
Theorem flat_object_is_found (rt : Runtime) (before body after : string) :
  count_char "{" before = 0%nat ->
  brace_free body ->
  re_search_object (before ++ "{" ++ body ++ "}" ++ after) = Some ("{" ++ body ++ "}")%string
  /\ _parse_response rt (before ++ "{" ++ body ++ "}" ++ after)
     = match json_loads rt ("{" ++ body ++ "}") with
       | Return parsed => parsed
       | Raise _ =>
           [ ("raw_response", PStr (before ++ "{" ++ body ++ "}" ++ after));
             ("is_occupied", PNone);
             ("confidence", PStr "низкий") ]
       end.
Proof.
  intros Hbefore Hbody.
  assert (Hfound : re_search_object (before ++ "{" ++ body ++ "}" ++ after)
                   = Some ("{" ++ body ++ "}")%string).
  { rewrite (re_search_object_skips _ _ Hbefore). simpl.
    destruct (scan_object_flat body after Hbody) as [Hscan Hsub].
    simpl in Hscan, Hsub. rewrite Hscan. simpl substring. rewrite Hsub.
    reflexivity. }
  split; [exact Hfound |].
  unfold _parse_response. rewrite Hfound. reflexivity.
Qed.

Lemma flat_object_in_answer :
  re_search_object Scenarios.answer_with_object = Some "{a: 1}"
  /\ _parse_response Scenarios.runtime Scenarios.answer_with_object
     = [ ("raw_response", PStr Scenarios.answer_with_object);
         ("is_occupied", PNone);
         ("confidence", PStr "низкий") ].
Proof.
  refine (flat_object_is_found Scenarios.runtime "Вот ответ: " "a: 1" " Спасибо." eq_refl _).
  split; reflexivity.
Defined.

Lemma scan_object_too_deep (a b rest : string) :
  brace_free a -> brace_free b ->
  scan_object false (a ++ "{" ++ b ++ "{" ++ rest) = None.
Proof.
  intros Ha Hb.
  assert (Hinner : scan_object true (b ++ String "{" rest) = None).
  { clear Ha. induction b as [| c b IH]; [reflexivity |].
    destruct Hb as [Hopen Hclose]. simpl in Hopen, Hclose. simpl.
    unfold close_brace, open_brace.
    destruct (Ascii.eqb c "}"); [discriminate Hclose |].
    destruct (Ascii.eqb c "{"); [discriminate Hopen |].
    rewrite (IH (conj Hopen Hclose)). reflexivity. }
  induction a as [| c a IH].
  - simpl. rewrite Hinner. reflexivity.
  - destruct Ha as [Hopen Hclose]. simpl in Hopen, Hclose. simpl.
    unfold close_brace, open_brace.
    destruct (Ascii.eqb c "}"); [discriminate Hclose |].
    destruct (Ascii.eqb c "{"); [discriminate Hopen |].
    pose proof (IH (conj Hopen Hclose)) as Hrest. simpl in Hrest.
    rewrite Hrest. reflexivity.
Qed.

(** An object that holds an object that holds an object is not matched
    from its first brace: the search goes on from the second one, so the
    decoder is given an inner object, or nothing. *)
Theorem object_nested_twice_is_not_found_whole (a b rest : string) :
  brace_free a -> brace_free b ->
  re_search_object ("{" ++ a ++ "{" ++ b ++ "{" ++ rest)
  = re_search_object ("{" ++ b ++ "{" ++ rest).
Proof.
  intros Ha Hb.
  pose proof (scan_object_too_deep a b rest Ha Hb) as Hscan.
  pose proof (re_search_object_skips a ("{" ++ b ++ "{" ++ rest) (proj1 Ha)) as Hskip.
  simpl in Hscan, Hskip. simpl. rewrite Hscan. exact Hskip.
Qed.

Lemma nested_answer_gives_inner_object :
  re_search_object Scenarios.answer_nested_twice = Some "{b: {c: 1}}".
Proof.
  exact (eq_trans
           (object_nested_twice_is_not_found_whole "a: " "b: " "c: 1}}}"
              (conj eq_refl eq_refl) (conj eq_refl eq_refl))
           eq_refl).
Defined.

(** ** What the ranker returns *)

Lemma get_default_set_other (d : dict) (k k' : string) (v dflt : pyval) :
  String.eqb k k' = false ->
  get_default (dict_set d k v) k' dflt = get_default d k' dflt.
Proof.
  intros Hk. unfold get_default. f_equal.
  induction d as [| [k0 v0] d IH]; simpl.
  - rewrite Hk. reflexivity.
  - destruct (String.eqb k0 k) eqn:E; simpl.
    + apply String.eqb_eq in E. subst k0. rewrite Hk. reflexivity.
    + destruct (String.eqb k0 k'); [reflexivity | exact IH].
Qed.

Lemma consider_admitted (min_area : number) (result scored : dict) :
  consider min_area result = Return (Some scored) -> admitted min_area scored.
Proof.
  intros H. destruct (consider_appends _ _ _ H) as [v [Hv ->]].
  apply suitability_score_returned in Hv. destruct Hv as [s [Hs [-> _]]].
  unfold consider in H.
  destruct (py_eq_str (get_default result "status" PNone) "success") eqn:Hstatus;
    [| discriminate H].
  cbn [negb] in H.
  apply obind_return in H. destruct H as [occupied [Hocc H]].
  apply py_get_return in Hocc. destruct Hocc as [analysis [Han ->]].
  apply obind_return in H. destruct H as [area [Harea H]].
  apply py_get_return in Harea. destruct Harea as [plot_details [Hpd ->]].
  apply obind_return in H. destruct H as [enough [Hge H]].
  apply obind_return in H. destruct H as [suitable [_ H]].
  destruct (truthy (get_default analysis "is_occupied" (PBool true))) eqn:Hvacant;
    [discriminate H |].
  destruct enough; [| discriminate H].
  unfold admitted. rewrite !get_default_set_other by reflexivity.
  rewrite dict_get_set.
  split; [exact Hstatus |].
  split; [exists analysis; split; [exact Han | exact Hvacant] |].
  split; [exists plot_details; split; [exact Hpd | exact Hge] |].
  exists s. split; [exact Hs | reflexivity].
Qed.

Lemma select_suitable_admitted (min_area : number) (all_results candidates : list dict) :
  select_suitable min_area all_results = Return candidates ->
  Forall (fun plot =>
            admitted min_area plot
            /\ exists result score,
                 In result all_results
                 /\ plot = dict_set result "suitability_score" score)
         candidates.
Proof.
  revert candidates. induction all_results as [| r rest IH]; simpl; intros candidates H.
  - injection H as <-. constructor.
  - apply obind_return in H. destruct H as [chosen [Hchosen H]].
    apply obind_return in H. destruct H as [others [Hothers H]].
    injection H as <-. specialize (IH others Hothers).
    assert (Hrest : Forall (fun plot =>
                              admitted min_area plot
                              /\ exists result score,
                                   (r = result \/ In result rest)
                                   /\ plot = dict_set result "suitability_score" score)
                           others).
    { eapply Forall_impl; [| exact IH].
      intros plot [Hadm [result [score [Hin Heq]]]].
      split; [exact Hadm |]. exists result, score. split; [right; exact Hin | exact Heq]. }
    destruct chosen as [scored |]; [| exact Hrest].
    constructor; [| exact Hrest].
    split; [exact (consider_admitted _ _ _ Hchosen) |].
    destruct (consider_appends _ _ _ Hchosen) as [v [_ ->]].
    exists r, v. split; [left; reflexivity | reflexivity].
Qed.

Section Ranker.

Variable rt : Runtime.
Variable w : World.
Variable output_dir : string.

(** Whatever [find_suitable_plots] returns was admitted: each plot of the
    returned list is a result of the area analysis with its score added,
    was analysed with success, has a judgement whose [is_occupied] is falsy
    and an area of at least [min_area], and carries a score between 10
    and 100.  The list returned is the one written to the report, the last
    thing the run does. *)
Theorem ranked_plots_are_admitted
    (min_lat min_lon max_lat max_lon : pyval) (min_area : number) (max_plots : Z)
    (t t' : trace) (ranked : list dict) :
  find_suitable_plots rt w output_dir min_lat min_lon max_lat max_lon min_area max_plots t
  = (Return ranked, t') ->
  exists all_results t1,
    analyze_area rt w output_dir min_lat min_lon max_lat max_lon max_plots t
    = (Return all_results, t1)
    /\ t' = t1 ++ [SaveSuitableReport ranked]
    /\ Forall (fun plot =>
                 admitted min_area plot
                 /\ exists result score,
                      In result all_results
                      /\ plot = dict_set result "suitability_score" score)
              ranked.
Proof.
  unfold find_suitable_plots, bind, lift, call, ret. intros H.
  destruct (analyze_area rt w output_dir min_lat min_lon max_lat max_lon max_plots t)
    as [[all_results | e] t1]; [| discriminate H].
  destruct (select_suitable min_area all_results) as [candidates | e] eqn:Hsel;
    [| discriminate H].
  destruct (write_file w t1 (SaveSuitableReport (sort_by_score_reverse candidates)));
    [| discriminate H].
  injection H as <- <-.
  exists all_results, t1. split; [reflexivity |]. split; [reflexivity |].
  eapply Permutation_Forall; [apply sort_by_score_reverse_perm |].
  exact (select_suitable_admitted _ _ _ Hsel).
Qed.

End Ranker.

(** The sample parcel, judged from a prose answer, is ranked and admitted. *)
Lemma prose_classifier_ranking :
  exists ranked t',
    find_suitable_plots Scenarios.runtime Scenarios.prose_classifier Scenarios.output_dir
      (PInt 59) (PInt 29) (PInt 61) (PInt 31) (NInt 1000) 10 []
    = (Return ranked, t')
    /\ List.length ranked = 1%nat
    /\ Forall (admitted (NInt 1000)) ranked.
Proof.
  destruct (find_suitable_plots Scenarios.runtime Scenarios.prose_classifier
              Scenarios.output_dir (PInt 59) (PInt 29) (PInt 61) (PInt 31)
              (NInt 1000) 10 []) as [[ranked | e] t'] eqn:E.
  - exists ranked, t'. split; [reflexivity |]. split.
    + vm_compute in E. injection E as <- _. reflexivity.
    + destruct (ranked_plots_are_admitted _ _ _ _ _ _ _ _ _ _ _ _ E)
        as [all_results [t1 [_ [_ Hall]]]].
      eapply Forall_impl; [| exact Hall]. intros plot [H _]. exact H.
  - vm_compute in E. discriminate E.
Defined.

(** ** An area that is not a number *)

Lemma consider_needs_a_numeric_area (min_area : number) (result plot_details : dict) :
  py_eq_str (get_default result "status" PNone) "success" = true ->
  get_default result "plot_details" (PDict []) = PDict plot_details ->
  is_number (get_default plot_details "area" (PInt 0)) = false ->
  exists e, consider min_area result = Raise e.
Proof.
  intros Hstatus Hpd Harea. unfold consider. rewrite Hstatus, Hpd. cbn [negb].
  destruct (py_get (get_default result "analysis" (PDict [])) "is_occupied" (PBool true))
    as [occupied | e]; [| exists e; reflexivity].
  cbn [obind py_get].
  destruct (py_ge (get_default plot_details "area" (PInt 0)) min_area)
    as [enough | e] eqn:Hge; [| exists e; reflexivity].
  apply py_ge_return in Hge. rewrite Hge in Harea. discriminate Harea.
Qed.

Lemma select_suitable_raises (min_area : number) (all_results : list dict)
    (result : dict) (e0 : exn) :
  In result all_results ->
  consider min_area result = Raise e0 ->
  exists e, select_suitable min_area all_results = Raise e.
Proof.
  intros Hin Hraise. induction all_results as [| r rest IH]; [contradiction Hin |].
  simpl. destruct Hin as [-> | Hin].
  - rewrite Hraise. exists e0. reflexivity.
  - destruct (consider min_area r) as [chosen | e]; [| exists e; reflexivity].
    destruct (IH Hin) as [e He]. rewrite He. exists e. reflexivity.
Qed.

Section Abort.

Variable rt : Runtime.
Variable w : World.
Variable output_dir : string.

(** One analysed plot whose area is not a number (the registry gave
    [null], or a text) makes [find_suitable_plots] raise after the whole
    area was analysed: nothing is ranked and no report of suitable plots is
    written, whatever the other plots are. *)
Theorem area_that_is_no_number_stops_the_ranking
    (min_lat min_lon max_lat max_lon : pyval) (min_area : number) (max_plots : Z)
    (t t1 : trace) (all_results : list dict) (result plot_details : dict) :
  analyze_area rt w output_dir min_lat min_lon max_lat max_lon max_plots t
  = (Return all_results, t1) ->
  In result all_results ->
  py_eq_str (get_default result "status" PNone) "success" = true ->
  get_default result "plot_details" (PDict []) = PDict plot_details ->
  is_number (get_default plot_details "area" (PInt 0)) = false ->
  exists e,
    find_suitable_plots rt w output_dir min_lat min_lon max_lat max_lon min_area max_plots t
    = (Raise e, t1).
Proof.
  intros Harea Hin Hstatus Hpd Hnum.
  destruct (consider_needs_a_numeric_area min_area result plot_details Hstatus Hpd Hnum)
    as [e0 He0].
  destruct (select_suitable_raises min_area all_results result e0 Hin He0) as [e He].
  exists e. unfold find_suitable_plots, bind, lift. rewrite Harea, He. reflexivity.
Qed.

End Abort.

(** A registry record with a [null] area: the area is analysed, the
    ranking raises. *)
Lemma null_area_stops_the_ranking :
  exists e t1,
    analyze_area Scenarios.runtime Scenarios.area_missing Scenarios.output_dir
      (PInt 59) (PInt 29) (PInt 61) (PInt 31) 10 []
    = (Return [Scenarios.result_without_area], t1)
    /\ find_suitable_plots Scenarios.runtime Scenarios.area_missing Scenarios.output_dir
         (PInt 59) (PInt 29) (PInt 61) (PInt 31) (NInt 1000) 10 []
       = (Raise e, t1).
Proof.
  destruct (analyze_area Scenarios.runtime Scenarios.area_missing Scenarios.output_dir
              (PInt 59) (PInt 29) (PInt 61) (PInt 31) 10 [])
    as [[all_results | e] t1] eqn:E.
  - assert (Hall : all_results = [Scenarios.result_without_area]).
    { vm_compute in E. injection E as <- _. reflexivity. }
    subst all_results.
    destruct (area_that_is_no_number_stops_the_ranking
                Scenarios.runtime Scenarios.area_missing Scenarios.output_dir
                (PInt 59) (PInt 29) (PInt 61) (PInt 31) (NInt 1000) 10 [] t1
                [Scenarios.result_without_area] Scenarios.result_without_area
                (get_plot_details Scenarios.parcel_without_area)
                E (or_introl eq_refl) eq_refl eq_refl eq_refl) as [e He].
    exists e, t1. split; [reflexivity | exact He].
  - vm_compute in E. discriminate E.
Defined.

(** ** The analysis of an area *)

Lemma vacant_plots_of_returns (results : list dict) :
  Forall well_formed_result results ->
  exists vacant, vacant_plots_of results = Return vacant.
Proof.
  induction 1 as [| r rest Hr _ [others IH]]; simpl; [eexists; reflexivity |].
  rewrite IH.
  assert (Hkeep : exists keep, is_vacant_plot r = Return keep).
  { unfold is_vacant_plot, get_default.
    destruct Hr as [[Hstatus [judgement Hj]] | [[Hstatus _] | [Hstatus _]]];
      rewrite Hstatus; simpl; [rewrite Hj; simpl | |]; eexists; reflexivity. }
  destruct Hkeep as [keep ->]. simpl. eexists. reflexivity.
Qed.

Section Area.

Variable rt : Runtime.
Variable w : World.
Variable output_dir : string.

Lemma analyze_plots_well_formed (plots : list pyval) :
  forall (results : list dict) (t : trace),
    Forall well_formed_result results ->
    exists out t',
      analyze_plots rt w output_dir plots results t = (Return out, t')
      /\ Forall well_formed_result out
      /\ List.length out
         = (List.length results + List.length (filter has_coordinates plots))%nat.
Proof.
  induction plots as [| plot rest IH]; intros results t Hresults.
  - exists results, t. split; [reflexivity |]. split; [exact Hresults |]. simpl. lia.
  - simpl analyze_plots. simpl filter. unfold has_coordinates at 1.
    destruct (get_plot_coordinates plot) as [[lat lon] |].
    + destruct (analyze_single_plot_well_formed rt w output_dir None lat lon t)
        as [result [t1 [Hrun Hresult]]].
      unfold bind, emit. rewrite Hrun.
      destruct (IH (results ++ [result]) (t1 ++ [Sleep 2])) as [out [t' [Hout [Hwf Hlen]]]].
      { apply Forall_app. split; [exact Hresults |]. constructor; [exact Hresult | constructor]. }
      exists out, t'. split; [exact Hout |]. split; [exact Hwf |].
      rewrite Hlen, length_app. simpl. lia.
    + apply IH. exact Hresults.
Qed.

(** When the registry answers the area request with a list of features,
    [analyze_area] analyses the first [max_plots] of them, one result for
    each that has coordinates, and tries to write the area report.  What it
    returns hangs on that write: the results when the report is written,
    the empty list when it is not, though every plot was analysed. *)
Theorem area_results_hang_on_the_report
    (min_lat min_lon max_lat max_lon : pyval) (max_plots : Z) (t : trace)
    (data : dict) (features : list pyval) :
  registry_json w t (RegistryInArea min_lat min_lon max_lat max_lon max_plots)
  = Return (PDict data) ->
  get_default data "features" (PList []) = PList features ->
  exists results vacant t1,
    analyze_plots rt w output_dir (slice_to features max_plots) []
      (t ++ [RegistryInArea min_lat min_lon max_lat max_lon max_plots])
    = (Return results, t1)
    /\ List.length results
       = List.length (filter has_coordinates (slice_to features max_plots))
    /\ vacant_plots_of results = Return vacant
    /\ analyze_area rt w output_dir min_lat min_lon max_lat max_lon max_plots t
       = (Return (match write_file w t1 (SaveAreaReport results vacant) with
                  | Return _ => results
                  | Raise _ => []
                  end),
          t1 ++ [SaveAreaReport results vacant]).
Proof.
  intros Hregistry Hfeatures.
  destruct (analyze_plots_well_formed (slice_to features max_plots) []
              (t ++ [RegistryInArea min_lat min_lon max_lat max_lon max_plots])
              (Forall_nil _)) as [results [t1 [Hrun [Hwf Hlen]]]].
  destruct (vacant_plots_of_returns results Hwf) as [vacant Hvacant].
  exists results, vacant, t1.
  split; [exact Hrun |]. split; [exact Hlen |]. split; [exact Hvacant |].
  unfold analyze_area, search_plots_in_area, try_except, bind, lift, call, ret.
  rewrite Hregistry. cbn [py_get]. rewrite Hfeatures. cbn [py_len plots_to_visit].
  rewrite Hrun, Hvacant.
  destruct (write_file w t1 (SaveAreaReport results vacant)); reflexivity.
Qed.

End Area.

(** The sample parcel is analysed; the area report cannot be written, and
    the area analysis returns nothing. *)
Lemma area_report_failure_loses_results :
  exists results vacant t1,
    analyze_plots Scenarios.runtime Scenarios.classifier_down_no_area_report
      Scenarios.output_dir [Scenarios.parcel] []
      [RegistryInArea (PInt 59) (PInt 29) (PInt 61) (PInt 31) 10]
    = (Return results, t1)
    /\ List.length results = 1%nat
    /\ analyze_area Scenarios.runtime Scenarios.classifier_down_no_area_report
         Scenarios.output_dir (PInt 59) (PInt 29) (PInt 61) (PInt 31) 10 []
       = (Return [], t1 ++ [SaveAreaReport results vacant]).
Proof.
  destruct (area_results_hang_on_the_report
              Scenarios.runtime Scenarios.classifier_down_no_area_report
              Scenarios.output_dir (PInt 59) (PInt 29) (PInt 61) (PInt 31) 10 []
              [("features", PList [Scenarios.parcel])] [Scenarios.parcel]
              eq_refl eq_refl)
    as [results [vacant [t1 [Hrun [Hlen [_ Harea]]]]]].
  exists results, vacant, t1.
  split; [exact Hrun |]. split; [exact Hlen |]. exact Harea.
Defined.

(** ** The availability tests *)

Import TestApiAvailability.

Lemma long_bytes_are_truthy (b : string) :
  1000 < bytes_len b -> truthy (PStr b) = true.
Proof. destruct b; [intros H; discriminate H | reflexivity]. Qed.

Section Availability.

Variable rt : Runtime.
Variable w : World.

(** The registry test cannot fail.  The registry client turns every
    failure of its request into [None], which the test counts as "nothing
    found, but available": it makes one request and returns True whatever
    the registry answers, also when the request raises. *)
Theorem registry_test_cannot_fail (t : trace) :
  test_rosreestr_api w t = (Return true, t ++ [RegistryByPoint test_lat test_lon]).
Proof.
  unfold test_rosreestr_api, try_except, bind, ret.
  destruct (get_plot_by_coordinates_returns w test_lat test_lon t) as [plot Hplot].
  rewrite Hplot. destruct (truthy plot); reflexivity.
Qed.

Lemma imagery_test_verdict (t : trace) :
  exists passed,
    test_yandex_maps_api w t
    = (Return passed, t ++ [ImageryGet test_lat test_lon 15 400 300])
    /\ (passed = true
        <-> exists image,
              imagery_content w t (ImageryGet test_lat test_lon 15 400 300) = Return image
              /\ image_open w image = Return tt
              /\ 1000 < bytes_len image).
Proof.
  unfold test_yandex_maps_api, get_satellite_image, try_except, bind, lift, call, ret.
  destruct (imagery_content w t (ImageryGet test_lat test_lon 15 400 300))
    as [image | e] eqn:Himage.
  - change (truthy (PStr "")) with false. cbv iota.
    destruct (image_open w image) as [[] | e] eqn:Hopen.
    + destruct (1000 <? bytes_len image) eqn:Hlen.
      * apply Z.ltb_lt in Hlen. rewrite (long_bytes_are_truthy image Hlen).
        eexists. split; [reflexivity |].
        split; [intros _; exists image; repeat split; assumption | reflexivity].
      * rewrite andb_false_r. eexists. split; [reflexivity |].
        split; [intros H; discriminate H |].
        intros [image' [Heq [_ Hlong]]]. injection Heq as <-.
        apply Z.ltb_lt in Hlong. rewrite Hlong in Hlen. discriminate Hlen.
    + eexists. split; [reflexivity |].
      split; [intros H; discriminate H |].
      intros [image' [Heq [Hopen' _]]]. injection Heq as <-.
      rewrite Hopen' in Hopen. discriminate Hopen.
  - eexists. split; [reflexivity |].
    split; [intros H; discriminate H |].
    intros [image' [Heq _]]. discriminate Heq.
Qed.

Lemma classifier_test_verdict (anthropic_key : option string) (test_image : string)
    (t : trace) :
  exists passed t',
    test_claude_vision_api rt w anthropic_key test_image t = (Return passed, t')
    /\ (passed = true
        <-> exists key text,
              anthropic_key = Some key
              /\ key <> ""
              /\ vision_text w t
                   (VisionCreate test_image
                      [("cadastral_number", PStr "TEST:00:0000000:00")])
                 = Return text
              /\ _parse_response rt text <> []
              /\ dict_get (_parse_response rt text) "error" = None).
Proof.
  unfold test_claude_vision_api, analyze_plot_occupancy, try_except, bind, call, ret.
  destruct anthropic_key as [key |].
  - unfold truthy at 1.
    destruct (String.eqb_spec key "") as [-> | Hkey]; cbn [negb].
    + do 2 eexists. split; [reflexivity |].
      split; [intros H; discriminate H |].
      intros [key' [text [Heq [Hkey' _]]]]. injection Heq as <-. contradiction Hkey'.
      reflexivity.
    + destruct (vision_text w t _) as [text | e] eqn:Hvision.
      * destruct (_parse_response rt text) as [| entry judgement] eqn:Hparse.
        { do 2 eexists. split; [reflexivity |].
          split; [intros H; discriminate H |].
          intros [key' [text' [_ [_ [Htext [Hnonempty _]]]]]].
          injection Htext as <-. contradiction Hnonempty. }
        destruct (dict_get (entry :: judgement) "error") as [v |] eqn:Herror;
          cbn [truthy andb negb].
        { do 2 eexists. split; [reflexivity |].
          split; [intros H; discriminate H |].
          intros [key' [text' [_ [_ [Htext [_ Hnone]]]]]].
          injection Htext as <-. rewrite Hparse, Herror in Hnone. discriminate Hnone. }
        do 2 eexists. split; [reflexivity |].
        split; [intros _ | reflexivity].
        exists key, text. rewrite Hparse.
        repeat split; [exact Hkey | intros H; discriminate H | exact Herror].
      * do 2 eexists. split; [reflexivity |].
        split; [intros H; discriminate H |].
        intros [key' [text [_ [_ [Htext _]]]]]. discriminate Htext.
  - do 2 eexists. split; [reflexivity |].
    split; [intros H; discriminate H |].
    intros [key [text [Heq _]]]. discriminate Heq.
Qed.

(** What a passed run of [test_all] shows, and what it does not.  All
    tests pass exactly when the imagery service, asked after the registry
    request, gives more than 1000 bytes that open as an image, the key of
    the classifier is set and not empty, and the classifier, asked after
    the imagery request, gives an answer whose judgement is not empty and
    has no [error] entry.  The registry is not part of it: its test passes
    whatever it answers. *)
Theorem test_all_passes_iff (anthropic_key : option string) (test_image : string)
    (t : trace) :
  fst (test_all rt w anthropic_key test_image t) = Return true
  <-> (exists image,
         imagery_content w (t ++ [RegistryByPoint test_lat test_lon])
           (ImageryGet test_lat test_lon 15 400 300) = Return image
         /\ image_open w image = Return tt
         /\ 1000 < bytes_len image)
      /\ (exists key text,
            anthropic_key = Some key
            /\ key <> ""
            /\ vision_text w
                 ((t ++ [RegistryByPoint test_lat test_lon])
                    ++ [ImageryGet test_lat test_lon 15 400 300])
                 (VisionCreate test_image
                    [("cadastral_number", PStr "TEST:00:0000000:00")])
               = Return text
            /\ _parse_response rt text <> []
            /\ dict_get (_parse_response rt text) "error" = None).
Proof.
  unfold test_all, bind, ret.
  destruct (get_plot_by_coordinates_returns w test_lat test_lon t) as [plot Hplot].
  assert (Hregistry : test_rosreestr_api w t
                      = (Return true, t ++ [RegistryByPoint test_lat test_lon])).
  { unfold test_rosreestr_api, try_except, bind, ret. rewrite Hplot.
    destruct (truthy plot); reflexivity. }
  rewrite Hregistry.
  destruct (imagery_test_verdict (t ++ [RegistryByPoint test_lat test_lon]))
    as [imagery [Himagery Hiff1]].
  rewrite Himagery.
  destruct (classifier_test_verdict anthropic_key test_image
              ((t ++ [RegistryByPoint test_lat test_lon])
                 ++ [ImageryGet test_lat test_lon 15 400 300]))
    as [classifier [t' [Hclassifier Hiff2]]].
  rewrite Hclassifier. cbn [fst andb].
  rewrite <- Hiff1, <- Hiff2.
  destruct imagery, classifier; cbn [andb]; split;
    try (intros H; discriminate H);
    try (intros [H1 H2]; discriminate);
    try (intros _; split; reflexivity).
Qed.

End Availability.

(** ** The image that is handed on *)

(** The bytes that [get_satellite_image] returns are the answer of the
    imagery service to one request, they open as an image, and when a path
    was given they were written to it: an answer that does not open, or a
    write that fails, gives [None]. *)
Theorem returned_image_is_checked_and_saved (w : World) (lat lon : pyval)
    (zoom width height : Z) (save_path image : string) (t t' : trace) :
  get_satellite_image w lat lon zoom width height save_path t = (Return (Some image), t') ->
  imagery_content w t (ImageryGet lat lon zoom width height) = Return image
  /\ image_open w image = Return tt
  /\ ((save_path = "" /\ t' = t ++ [ImageryGet lat lon zoom width height])
      \/ (save_path <> ""
          /\ write_file w (t ++ [ImageryGet lat lon zoom width height])
               (ImageWrite save_path) = Return tt
          /\ t' = (t ++ [ImageryGet lat lon zoom width height]) ++ [ImageWrite save_path])).
Proof.
  unfold get_satellite_image, try_except, bind, lift, call, ret. intros H.
  destruct (imagery_content w t (ImageryGet lat lon zoom width height))
    as [payload | e]; [| discriminate H].
  destruct (image_open w payload) as [[] | e] eqn:Hopen; [| discriminate H].
  unfold truthy in H.
  destruct (String.eqb_spec save_path "") as [-> | Hpath]; cbn [negb] in H.
  - injection H as <- <-. split; [reflexivity |]. split; [exact Hopen |].
    left. split; reflexivity.
  - destruct (write_file w (t ++ [ImageryGet lat lon zoom width height])
                (ImageWrite save_path)) as [[] | e] eqn:Hwrite; [| discriminate H].
    injection H as <- <-. split; [reflexivity |]. split; [exact Hopen |].
    right. split; [exact Hpath |]. split; reflexivity.
Qed.

Lemma returned_image_in_prose_world :
  imagery_content Scenarios.prose_classifier [] (ImageryGet (PInt 60) (PInt 30) 18 800 600)
  = Return Scenarios.png
  /\ image_open Scenarios.prose_classifier Scenarios.png = Return tt
  /\ (("output/plot.png" = "" /\ [ImageryGet (PInt 60) (PInt 30) 18 800 600; ImageWrite "output/plot.png"]
                                 = [] ++ [ImageryGet (PInt 60) (PInt 30) 18 800 600])
      \/ ("output/plot.png" <> ""
          /\ write_file Scenarios.prose_classifier
               ([] ++ [ImageryGet (PInt 60) (PInt 30) 18 800 600])
               (ImageWrite "output/plot.png") = Return tt
          /\ [ImageryGet (PInt 60) (PInt 30) 18 800 600; ImageWrite "output/plot.png"]
             = ([] ++ [ImageryGet (PInt 60) (PInt 30) 18 800 600])
                 ++ [ImageWrite "output/plot.png"])).
Proof.
  exact (returned_image_is_checked_and_saved Scenarios.prose_classifier (PInt 60) (PInt 30)
           18 800 600 "output/plot.png" Scenarios.png []
           [ImageryGet (PInt 60) (PInt 30) 18 800 600; ImageWrite "output/plot.png"]
           eq_refl).
Defined.
